(** * A task-tracking CRUD service over a document store

    Shallow embedding of [main.go]: the [Task] entity, the five echo
    handlers ([createTask], [getAllTasks], [getTaskByID], [updateTask],
    [deleteTask]) and the part of the MongoDB driver they call, followed by
    the properties of the handlers.

    The handlers are written in state-passing style over the collection
    [taskCollection]; what the process reads from its surroundings (the
    clock, the object-id generator, whether the store answers) is an [Env]
    value, and what echo hands to a handler (the path parameter and the
    bound request body) is a [Context] value. *)

From Stdlib Require Import ZArith NArith String Ascii List Lia.
From stdpp Require Import gmap strings list fin_maps.

Local Open Scope string_scope.
Local Open Scope Z_scope.

(** ** Identifiers: [primitive.ObjectID] *)

(** [type ObjectID [12]byte], kept as the 96-bit big-endian number the twelve
    bytes spell. *)
Definition ObjectID := N.

(** [primitive.NilObjectID], the zero value of the array. *)
Definition NilObjectID : ObjectID := 0%N.

(** [encoding/hex]: the value of one hex digit, either case. *)
Definition fromHexChar (c : ascii) : option N :=
  let n := N_of_ascii c in
  if ((48 <=? n) && (n <=? 57))%N then Some (n - 48)%N
  else if ((97 <=? n) && (n <=? 102))%N then Some (n - 97 + 10)%N
  else if ((65 <=? n) && (n <=? 70))%N then Some (n - 65 + 10)%N
  else None.

(** [hex.DecodeString]: two digits per byte; an odd length or a character that
    is no hex digit is an error. *)
Fixpoint hex_DecodeString (s : string) : option (list N) :=
  match s with
  | EmptyString => Some []
  | String _ EmptyString => None
  | String a (String b rest) =>
      match fromHexChar a, fromHexChar b with
      | Some x, Some y =>
          match hex_DecodeString rest with
          | Some bs => Some ((x * 16 + y)%N :: bs)
          | None => None
          end
      | _, _ => None
      end
  end.

(** The twelve bytes read as one big-endian number. *)
Definition oid_of_bytes (bs : list N) : ObjectID :=
  fold_left (fun acc b => (acc * 256 + b)%N) bs 0%N.

(** [primitive.ObjectIDFromHex]: exactly 24 hex digits. *)
Definition ObjectIDFromHex (s : string) : option ObjectID :=
  if negb (Nat.eqb (String.length s) 24) then None
  else match hex_DecodeString s with
       | Some bs => Some (oid_of_bytes bs)
       | None => None
       end.

(** ** Time *)

(** A [time.Time] instant, in nanoseconds since the Unix epoch. *)
Definition Time := Z.

(** A BSON datetime, in milliseconds since the Unix epoch. *)
Definition DateTime := Z.

(** The zero [time.Time]: January 1 of year 1, 00:00 UTC. *)
Definition zeroTime : Time := -62135596800 * 1000000000.

(** [primitive.NewDateTimeFromTime]: what the driver stores for a
    [time.Time]; the sub-millisecond part is dropped. *)
Definition NewDateTimeFromTime (t : Time) : DateTime := t / 1000000.

(** [DateTime.Time]: the instant a stored datetime decodes to. *)
Definition DateTime_Time (ms : DateTime) : Time := ms * 1000000.

(** ** The Task entity *)

Record Task := mkTask {
  ID : ObjectID;
  Title : string;
  Description : string;
  Status : string;
  CreatedAt : Time;
  UpdatedAt : Time
}.

(** Assignments to one field of a [Task]. *)
Definition set_ID (v : ObjectID) (t : Task) : Task :=
  {| ID := v; Title := Title t; Description := Description t;
     Status := Status t; CreatedAt := CreatedAt t; UpdatedAt := UpdatedAt t |}.

Definition set_Status (v : string) (t : Task) : Task :=
  {| ID := ID t; Title := Title t; Description := Description t;
     Status := v; CreatedAt := CreatedAt t; UpdatedAt := UpdatedAt t |}.

Definition set_CreatedAt (v : Time) (t : Task) : Task :=
  {| ID := ID t; Title := Title t; Description := Description t;
     Status := Status t; CreatedAt := v; UpdatedAt := UpdatedAt t |}.

Definition set_UpdatedAt (v : Time) (t : Task) : Task :=
  {| ID := ID t; Title := Title t; Description := Description t;
     Status := Status t; CreatedAt := CreatedAt t; UpdatedAt := v |}.

(** ** Stored documents *)

(** The BSON values the service writes. *)
Inductive BVal :=
| BString (s : string)
| BDateTime (ms : DateTime).

(** A document is its fields by name ([bson.M]); the collection keeps each
    document under its [_id], which is unique in a collection, so [_id] is
    the key and the document holds the remaining fields. *)
Abbreviation Doc := (gmap string BVal).
Abbreviation Collection := (gmap ObjectID (gmap string BVal)).

(** Marshalling a [Task] by its [bson] struct tags: [_id] and [description]
    carry [omitempty], so a zero id and an empty description are left out. *)
Definition marshal_id (t : Task) : option ObjectID :=
  if decide (ID t = NilObjectID) then None else Some (ID t).

Definition marshal_fields (t : Task) : Doc :=
  let d : Doc :=
    <["title" := BString (Title t)]>
    (<["status" := BString (Status t)]>
    (<["created_at" := BDateTime (NewDateTimeFromTime (CreatedAt t))]>
    (<["updated_at" := BDateTime (NewDateTimeFromTime (UpdatedAt t))]> ∅))) in
  if decide (Description t = "") then d
  else <["description" := BString (Description t)]> d.

(** Decoding one field into a Go [string] or [time.Time]: a field the
    document lacks leaves the zero value, a value of another BSON type is a
    decode error. *)
Definition decode_string (v : option BVal) : option string :=
  match v with
  | None => Some ""
  | Some (BString s) => Some s
  | Some _ => None
  end.

Definition decode_time (v : option BVal) : option Time :=
  match v with
  | None => Some zeroTime
  | Some (BDateTime ms) => Some (DateTime_Time ms)
  | Some _ => None
  end.

(** [Decode(&task)] of the document stored under [id]. *)
Definition Decode (id : ObjectID) (d : Doc) : option Task :=
  match decode_string (d !! "title"), decode_string (d !! "description"),
        decode_string (d !! "status"),
        decode_time (d !! "created_at"), decode_time (d !! "updated_at") with
  | Some ti, Some de, Some st, Some cr, Some up =>
      Some {| ID := id; Title := ti; Description := de; Status := st;
              CreatedAt := cr; UpdatedAt := up |}
  | _, _, _, _, _ => None
  end.

(** ** The surroundings of one request *)

(** What a handler reads from outside during one request: [time_Now k] is
    the wall clock at the [k]-th call of [time.Now()], [NewObjectID k] the
    [k]-th id the generator hands out, and [db_err] says whether the store
    call of this request comes back with a driver error (an unreachable or
    failing server). *)
Record Env := mkEnv {
  time_Now : nat -> Time;
  NewObjectID : nat -> ObjectID;
  db_err : bool
}.

(** What echo gives a handler: [c.Param] and the outcome of [c.Bind] into a
    fresh [Task] ([None] when the body cannot be decoded; fields the body
    leaves out stay at their zero value). *)
Record Context := mkContext {
  Param : string -> string;
  Bind : option Task
}.

(** ** The store driver *)

(** The [_id] a marshalled task is inserted under: its own, or when that was
    left out, one the driver generates. *)
Definition ensureID (e : Env) (t : Task) : ObjectID :=
  match marshal_id t with
  | Some id => id
  | None => NewObjectID e 1
  end.

(** [InsertOne]: a document marshalled without [_id] gets one from the
    driver; an [_id] already in the collection is a duplicate-key error. *)
Definition InsertOne (e : Env) (t : Task) (db : Collection) : option Collection :=
  if db_err e then None
  else
    let id := ensureID e t in
    match db !! id with
    | Some _ => None
    | None => Some (<[id := marshal_fields t]> db)
    end.

(** [Find] with the empty filter: a cursor that delivers every document of
    the collection. *)
Definition Find (e : Env) (db : Collection) : option (list (ObjectID * Doc)) :=
  if db_err e then None else Some (map_to_list db).

(** The three outcomes of [FindOne(...).Decode(&task)] the handler tells
    apart. *)
Inductive FindOneResult :=
| Found (t : Task)
| ErrNoDocuments
| ErrOther.

Definition FindOne (e : Env) (id : ObjectID) (db : Collection) : FindOneResult :=
  if db_err e then ErrOther
  else match db !! id with
       | None => ErrNoDocuments
       | Some d => match Decode id d with
                   | Some t => Found t
                   | None => ErrOther
                   end
       end.

(** [UpdateOne] with a [$set] document: every field of [set] replaces or
    adds that field of the matched document, the others stay. The result is
    the new collection and [MatchedCount]. *)
Definition UpdateOne (e : Env) (id : ObjectID) (set : Doc) (db : Collection)
  : option (Collection * Z) :=
  if db_err e then None
  else match db !! id with
       | Some d => Some (<[id := set ∪ d]> db, 1)
       | None => Some (db, 0)
       end.

(** [DeleteOne]: the new collection and [DeletedCount]. *)
Definition DeleteOne (e : Env) (id : ObjectID) (db : Collection)
  : option (Collection * Z) :=
  if db_err e then None
  else match db !! id with
       | Some _ => Some (delete id db, 1)
       | None => Some (db, 0)
       end.

(** ** Responses *)

Definition StatusOK : Z := 200.
Definition StatusCreated : Z := 201.
Definition StatusBadRequest : Z := 400.
Definition StatusNotFound : Z := 404.
Definition StatusInternalServerError : Z := 500.

(** The values the handlers pass to [c.JSON]. *)
Inductive Body :=
| BodyTask (t : Task)
| BodyTasks (ts : list Task)
| BodyMap (key value : string).

Record Response := JSON {
  status : Z;
  body : Body
}.

(** ** The handlers *)

Definition createTask (e : Env) (c : Context) (db : Collection)
  : Collection * Response :=
  match Bind c with
  | None => (db, JSON StatusBadRequest (BodyMap "error" "Invalid input data"))
  | Some task =>
      if decide (Title task = "") then
        (db, JSON StatusBadRequest (BodyMap "error" "Title is required"))
      else
        let task := if decide (Status task = "") then set_Status "Pending" task
                    else task in
        let task := set_ID (NewObjectID e 0) task in
        let task := set_CreatedAt (time_Now e 0) task in
        let task := set_UpdatedAt (time_Now e 1) task in
        match InsertOne e task db with
        | None =>
            (db, JSON StatusInternalServerError
                      (BodyMap "error" "Failed to create task"))
        | Some db' => (db', JSON StatusCreated (BodyTask task))
        end
  end.

(** The cursor loop of [getAllTasks]: decode each document and append it;
    the first document that fails to decode ends the listing. *)
Fixpoint decode_cursor (cursor : list (ObjectID * Doc)) (tasks : list Task)
  : option (list Task) :=
  match cursor with
  | [] => Some tasks
  | (id, d) :: cursor' =>
      match Decode id d with
      | None => None
      | Some task => decode_cursor cursor' (tasks ++ [task])%list
      end
  end.

Definition getAllTasks (e : Env) (c : Context) (db : Collection)
  : Collection * Response :=
  match Find e db with
  | None =>
      (db, JSON StatusInternalServerError
                (BodyMap "error" "Failed to fetch tasks"))
  | Some cursor =>
      match decode_cursor cursor [] with
      | None =>
          (db, JSON StatusInternalServerError
                    (BodyMap "error" "Error decoding task data"))
      | Some tasks => (db, JSON StatusOK (BodyTasks tasks))
      end
  end.

Definition getTaskByID (e : Env) (c : Context) (db : Collection)
  : Collection * Response :=
  let id := Param c "id" in
  match ObjectIDFromHex id with
  | None => (db, JSON StatusBadRequest (BodyMap "error" "Invalid ID"))
  | Some objectID =>
      match FindOne e objectID db with
      | ErrNoDocuments =>
          (db, JSON StatusNotFound (BodyMap "error" "Task not found"))
      | ErrOther =>
          (db, JSON StatusInternalServerError
                    (BodyMap "error" "Failed to fetch task"))
      | Found task => (db, JSON StatusOK (BodyTask task))
      end
  end.

(** The [$set] document [updateTask] builds from the bound payload. *)
Definition updateData (update : Task) : Doc :=
  <["title" := BString (Title update)]>
  (<["description" := BString (Description update)]>
  (<["status" := BString (Status update)]>
  (<["updated_at" := BDateTime (NewDateTimeFromTime (UpdatedAt update))]> ∅))).

Definition updateTask (e : Env) (c : Context) (db : Collection)
  : Collection * Response :=
  let id := Param c "id" in
  match ObjectIDFromHex id with
  | None => (db, JSON StatusBadRequest (BodyMap "error" "Invalid ID"))
  | Some objectID =>
      match Bind c with
      | None =>
          (db, JSON StatusBadRequest (BodyMap "error" "Invalid input data"))
      | Some update =>
          let update := set_UpdatedAt (time_Now e 0) update in
          match UpdateOne e objectID (updateData update) db with
          | None =>
              (db, JSON StatusInternalServerError
                        (BodyMap "error" "Failed to update task"))
          | Some (db', MatchedCount) =>
              if decide (MatchedCount = 0) then
                (db', JSON StatusNotFound (BodyMap "error" "Task not found"))
              else
                (db', JSON StatusOK
                           (BodyMap "message" "Task updated successfully"))
          end
      end
  end.

Definition deleteTask (e : Env) (c : Context) (db : Collection)
  : Collection * Response :=
  let id := Param c "id" in
  match ObjectIDFromHex id with
  | None => (db, JSON StatusBadRequest (BodyMap "error" "Invalid ID"))
  | Some objectID =>
      match DeleteOne e objectID db with
      | None =>
          (db, JSON StatusInternalServerError
                    (BodyMap "error" "Failed to delete task"))
      | Some (db', DeletedCount) =>
          if decide (DeletedCount = 0) then
            (db', JSON StatusNotFound (BodyMap "error" "Task not found"))
          else
            (db', JSON StatusOK
                       (BodyMap "message" "Task deleted successfully"))
      end
  end.

(** ** The routes *)

(** The five routes [main] registers on the echo instance, named by method
    and path pattern. *)
Inductive Route :=
| POST_tasks
| GET_tasks
| GET_tasks_id
| PUT_tasks_id
| DELETE_tasks_id.

#[global] Instance Route_eq_dec : EqDecision Route.
Proof. solve_decision. Defined.

(** The handler [main] registers for each route. *)
Definition handler (rt : Route)
  : Env -> Context -> Collection -> Collection * Response :=
  match rt with
  | POST_tasks => createTask
  | GET_tasks => getAllTasks
  | GET_tasks_id => getTaskByID
  | PUT_tasks_id => updateTask
  | DELETE_tasks_id => deleteTask
  end.

(** ** Notions used in the statements *)

(** The task [createTask] builds from the bound payload [task]. *)
Definition created (e : Env) (task : Task) : Task :=
  set_UpdatedAt (time_Now e 1)
    (set_CreatedAt (time_Now e 0)
       (set_ID (NewObjectID e 0)
          (if decide (Status task = "") then set_Status "Pending" task
           else task))).

(** Every stored document decodes into a [Task]. *)
Definition decodable (db : Collection) : Prop :=
  forall (id : ObjectID) (d : Doc), db !! id = Some d -> is_Some (Decode id d).

(** A client issuing creation requests one after the other. *)
Fixpoint create_each (reqs : list (Env * Context)) (db : Collection)
  : Collection * list Response :=
  match reqs with
  | [] => (db, [])
  | (e, c) :: reqs' =>
      let '(db', r) := createTask e c db in
      let '(db'', rs) := create_each reqs' db' in
      (db'', r :: rs)
  end.

(** Requests served one after the other, each on the collection the one
    before it left (every handler makes a single call to the store). *)
Fixpoint serve (reqs : list (Route * Env * Context)) (db : Collection)
  : Collection * list Response :=
  match reqs with
  | [] => (db, [])
  | (rt, e, c) :: reqs' =>
      let '(db', r) := handler rt e c db in
      let '(db'', rs) := serve reqs' db' in
      (db'', r :: rs)
  end.

(** The clock does not run backwards over a sequence of requests: every
    reading is at least the one before it, starting from [T]. *)
Fixpoint clock_ordered (T : Time) (reqs : list (Route * Env * Context))
  : Prop :=
  match reqs with
  | [] => True
  | (_, e, _) :: reqs' =>
      T <= time_Now e 0 /\ time_Now e 0 <= time_Now e 1 /\
      clock_ordered (time_Now e 1) reqs'
  end.

(** Every stored document carries both timestamps, createdAt not after
    updatedAt and updatedAt not after [T]. *)
Definition stamped (T : DateTime) (db : Collection) : Prop :=
  forall (id : ObjectID) (d : Doc),
    db !! id = Some d ->
    exists a b : DateTime,
      d !! "created_at" = Some (BDateTime a) /\
      d !! "updated_at" = Some (BDateTime b) /\
      a <= b /\ b <= T.

(** How many of the requests [reqs], answered by [rs] in order, went to
    route [rt] and were answered with status [s]. *)
Fixpoint answered (rt : Route) (s : Z) (reqs : list (Route * Env * Context))
    (rs : list Response) : nat :=
  match reqs, rs with
  | (rt', _, _) :: reqs', r :: rs' =>
      ((if bool_decide (rt' = rt /\ status r = s) then 1 else 0)
       + answered rt s reqs' rs')%nat
  | _, _ => 0%nat
  end.

(** A string of hex digits only. *)
Definition all_hex (s : string) : Prop :=
  Forall (fun ch => fromHexChar ch <> None) (list_ascii_of_string s).

(** ** Concrete requests, used to run the handlers *)

(** Two well-formed ids; [hex_b] spells 255. *)
Definition hex_a : string := "65a1b2c3d4e5f60718293a4b".
Definition hex_b : string := "0000000000000000000000ff".

(** A request with path parameter [id] and bound body [b]. *)
Definition ctx (id : string) (b : option Task) : Context :=
  {| Param := fun name => if decide (name = "id") then id else ""; Bind := b |}.

(** A body that carries a title, a description and a status; the fields it
    leaves out are at the zero value of [new(Task)]. *)
Definition payload (ti de st : string) : Task :=
  {| ID := NilObjectID; Title := ti; Description := de; Status := st;
     CreatedAt := zeroTime; UpdatedAt := zeroTime |}.

(** Surroundings with clock readings [t0] then [t1], generator output [id],
    and a store that responds. *)
Definition env_at (t0 t1 : Time) (id : ObjectID) : Env :=
  {| time_Now := fun k => match k with O => t0 | _ => t1 end;
     NewObjectID := fun k => match k with O => id | _ => (id + 1)%N end;
     db_err := false |}.

(** A first creation on the empty collection, its two clock readings on
    either side of a millisecond boundary. *)
Definition env1 : Env := env_at 1999999 2000001 255%N.
Definition req1 : Context := ctx "" (Some (payload "a" "" "")).
Definition db1 : Collection := (createTask env1 req1 ∅).1.

(** The same surroundings with a store whose call fails. *)
Definition env_down : Env :=
  {| time_Now := fun _ => 0; NewObjectID := fun _ => 7%N; db_err := true |}.

(** [db1] with a second document whose title is not a string. *)
Definition db_bad : Collection := <[9%N := {["title" := BDateTime 0]}]> db1.

(** A session: a creation, an update of the created task with an empty
    title, a second creation, and the deletion of the first task. *)
Definition session : list (Route * Env * Context) :=
  [ (POST_tasks, env1, req1);
    (PUT_tasks_id, env_at 3000000 3000000 0%N,
     ctx hex_b (Some (payload "" "" "Done")));
    (POST_tasks, env_at 4000000 4000500 4096%N,
     ctx "" (Some (payload "b" "second" "Open")));
    (DELETE_tasks_id, env_at 5000000 5000000 0%N, ctx hex_b None) ].

(** * Properties *)

(** ** Identifiers *)

Example ObjectIDFromHex_lower : ObjectIDFromHex hex_b = Some 255%N.
Proof. reflexivity. Qed.

Example ObjectIDFromHex_upper :
  ObjectIDFromHex "0000000000000000000000FF" = Some 255%N.
Proof. reflexivity. Qed.

Example ObjectIDFromHex_short : ObjectIDFromHex "42" = None.
Proof. reflexivity. Qed.

Example ObjectIDFromHex_not_hex :
  ObjectIDFromHex "00000000000000000000000g" = None.
Proof. reflexivity. Qed.

(** Only strings of 24 characters parse. *)
Lemma ObjectIDFromHex_length (s : string) (oid : ObjectID) :
  ObjectIDFromHex s = Some oid -> String.length s = 24%nat.
Proof.
  unfold ObjectIDFromHex. destruct (Nat.eqb_spec (String.length s) 24); done.
Qed.

(** ** Documents and decoding *)

Section Documents.

Implicit Types (t : Task) (d : Doc) (id : ObjectID).

Lemma marshal_fields_title t :
  marshal_fields t !! "title" = Some (BString (Title t)).
Proof. unfold marshal_fields. case_decide; by simplify_map_eq. Qed.

Lemma marshal_fields_status t :
  marshal_fields t !! "status" = Some (BString (Status t)).
Proof. unfold marshal_fields. case_decide; by simplify_map_eq. Qed.

Lemma marshal_fields_created_at t :
  marshal_fields t !! "created_at"
  = Some (BDateTime (NewDateTimeFromTime (CreatedAt t))).
Proof. unfold marshal_fields. case_decide; by simplify_map_eq. Qed.

Lemma marshal_fields_updated_at t :
  marshal_fields t !! "updated_at"
  = Some (BDateTime (NewDateTimeFromTime (UpdatedAt t))).
Proof. unfold marshal_fields. case_decide; by simplify_map_eq. Qed.

Lemma marshal_fields_description t :
  decode_string (marshal_fields t !! "description") = Some (Description t).
Proof.
  unfold marshal_fields. case_decide as Hd; simplify_map_eq; [|done].
  by rewrite Hd.
Qed.

(** What was marshalled decodes again, the timestamps at the precision of
    the store. *)
Lemma Decode_marshal_fields id t :
  Decode id (marshal_fields t)
  = Some {| ID := id; Title := Title t; Description := Description t;
            Status := Status t;
            CreatedAt := DateTime_Time (NewDateTimeFromTime (CreatedAt t));
            UpdatedAt := DateTime_Time (NewDateTimeFromTime (UpdatedAt t)) |}.
Proof.
  unfold Decode.
  rewrite marshal_fields_title, marshal_fields_status,
    marshal_fields_created_at, marshal_fields_updated_at,
    marshal_fields_description.
  reflexivity.
Qed.

(** The [$set] document has exactly four fields. *)
Lemma updateData_lookup (u : Task) (k : string) :
  updateData u !! k =
    if decide (k = "title") then Some (BString (Title u))
    else if decide (k = "description") then Some (BString (Description u))
    else if decide (k = "status") then Some (BString (Status u))
    else if decide (k = "updated_at")
         then Some (BDateTime (NewDateTimeFromTime (UpdatedAt u)))
    else None.
Proof.
  unfold updateData. repeat case_decide; by simplify_map_eq.
Qed.

(** [$set] on a stored document, field by field. *)
Lemma set_lookup (u : Task) d (k : string) :
  (updateData u ∪ d) !! k =
    match updateData u !! k with
    | Some v => Some v
    | None => d !! k
    end.
Proof.
  rewrite lookup_union. by destruct (updateData u !! k), (d !! k).
Qed.

End Documents.

(** ** Creation *)

Section Create.

Variables (e : Env) (c : Context) (db : Collection).

Lemma createTask_ok (task : Task) :
  Bind c = Some task ->
  Title task <> "" ->
  db_err e = false ->
  db !! ensureID e (created e task) = None ->
  createTask e c db
  = (<[ensureID e (created e task) := marshal_fields (created e task)]> db,
     JSON StatusCreated (BodyTask (created e task))).
Proof.
  intros Hb Ht He Hf. unfold createTask, InsertOne. rewrite Hb.
  destruct (decide (Title task = "")) as [|_]; [done|].
  fold (created e task). by rewrite He, Hf.
Qed.

Lemma createTask_Created (db' : Collection) (r : Response) :
  createTask e c db = (db', r) ->
  status r = StatusCreated ->
  exists task,
    Bind c = Some task /\ Title task <> "" /\ db_err e = false /\
    db !! ensureID e (created e task) = None /\
    db' = <[ensureID e (created e task) := marshal_fields (created e task)]> db /\
    r = JSON StatusCreated (BodyTask (created e task)).
Proof.
  unfold createTask, InsertOne. intros H Hs.
  destruct (Bind c) as [task|]; [|by inversion H; subst].
  destruct (decide (Title task = "")) as [|Ht]; [by inversion H; subst|].
  fold (created e task) in H.
  destruct (db_err e); [by inversion H; subst|].
  destruct (db !! ensureID e (created e task)) eqn:Hf;
    [by inversion H; subst|].
  inversion H; subst. by exists task.
Qed.

Lemma createTask_rejected (db' : Collection) (r : Response) :
  createTask e c db = (db', r) ->
  status r <> StatusCreated ->
  db' = db.
Proof.
  unfold createTask, InsertOne. intros H Hs.
  destruct (Bind c) as [task|]; [|by inversion H].
  destruct (decide (Title task = "")); [by inversion H|].
  destruct (db_err e); [by inversion H|].
  destruct (db !! _); [by inversion H|].
  inversion H; subst. by destruct Hs.
Qed.

End Create.

Lemma created_fields (e : Env) (task : Task) :
  ID (created e task) = NewObjectID e 0 /\
  Title (created e task) = Title task /\
  Description (created e task) = Description task /\
  Status (created e task)
  = (if decide (Status task = "") then "Pending" else Status task) /\
  CreatedAt (created e task) = time_Now e 0 /\
  UpdatedAt (created e task) = time_Now e 1.
Proof. unfold created. by case_decide. Qed.

Lemma ensureID_created (e : Env) (task : Task) :
  NewObjectID e 0 <> NilObjectID ->
  ensureID e (created e task) = NewObjectID e 0.
Proof.
  intros Hn. unfold ensureID, marshal_id.
  destruct (created_fields e task) as [-> _].
  by case_decide.
Qed.

(** C4. A creation request whose decoded title is empty is answered with
    400 and the collection is left as it was: nothing is persisted. *)
Theorem create_empty_title_rejected
    (e : Env) (c : Context) (db : Collection) (task : Task) :
  Bind c = Some task ->
  Title task = "" ->
  createTask e c db
  = (db, JSON StatusBadRequest (BodyMap "error" "Title is required")).
Proof.
  intros Hb Ht. unfold createTask. rewrite Hb.
  by destruct (decide (Title task = "")).
Qed.

(** C5. A successful creation returns and stores status ["Pending"] when the
    payload's status is empty, and the payload's own status otherwise. *)
Theorem create_status_default
    (e : Env) (c : Context) (db db' : Collection) (task : Task) (r : Response) :
  Bind c = Some task ->
  createTask e c db = (db', r) ->
  status r = StatusCreated ->
  exists (t : Task) (d : Doc),
    r = JSON StatusCreated (BodyTask t) /\
    db !! ensureID e t = None /\
    db' !! ensureID e t = Some d /\
    (Status task = "" ->
     Status t = "Pending" /\ d !! "status" = Some (BString "Pending")) /\
    (Status task <> "" ->
     Status t = Status task /\ d !! "status" = Some (BString (Status task))).
Proof.
  intros Hb H Hs.
  destruct (createTask_Created e c db db' r H Hs)
    as (task' & Hb' & _ & _ & Hf & -> & ->).
  assert (task' = task) as -> by congruence.
  exists (created e task), (marshal_fields (created e task)).
  rewrite lookup_insert_eq, marshal_fields_status.
  destruct (created_fields e task) as (_ & _ & _ & -> & _).
  split; [done|]. split; [done|]. split; [done|].
  split; intros Hst; by case_decide.
Qed.

(** C9. Creation does not depend on an id or on timestamps the caller put in
    the payload; a successful creation returns a task whose id is the one the
    generator handed out and whose timestamps are the two clock readings of
    the request, and stores it under an id that was not in the collection,
    with those readings as its stored timestamps. *)
Theorem create_discards_caller_fields
    (e : Env) (p : string -> string) (db : Collection) (task : Task)
    (i : ObjectID) (ca ua : Time) :
  let task' := set_ID i (set_CreatedAt ca (set_UpdatedAt ua task)) in
  createTask e (mkContext p (Some task')) db
  = createTask e (mkContext p (Some task)) db /\
  (status (createTask e (mkContext p (Some task')) db).2 = StatusCreated ->
   exists (t : Task) (k : ObjectID) (d : Doc),
     (createTask e (mkContext p (Some task')) db).2
     = JSON StatusCreated (BodyTask t) /\
     ID t = NewObjectID e 0 /\
     CreatedAt t = time_Now e 0 /\
     UpdatedAt t = time_Now e 1 /\
     (k = NewObjectID e 0 \/
      NewObjectID e 0 = NilObjectID /\ k = NewObjectID e 1) /\
     db !! k = None /\
     (createTask e (mkContext p (Some task')) db).1 = <[k := d]> db /\
     d !! "created_at"
     = Some (BDateTime (NewDateTimeFromTime (time_Now e 0))) /\
     d !! "updated_at"
     = Some (BDateTime (NewDateTimeFromTime (time_Now e 1)))).
Proof.
  intros task'.
  assert (createTask e (mkContext p (Some task')) db
          = createTask e (mkContext p (Some task)) db) as Heq.
  { unfold createTask, task'. simpl.
    destruct (decide (Title task = "")); [done|].
    by destruct (decide (Status task = "")). }
  split; [done|]. rewrite Heq. intros Hs.
  destruct (createTask e (mkContext p (Some task)) db) as [db' r] eqn:H.
  destruct (createTask_Created _ _ _ _ _ H Hs)
    as (task0 & [= <-] & _ & _ & Hf & -> & ->).
  destruct (created_fields e task) as (Hid & _ & _ & _ & Hc & Hu).
  exists (created e task), (ensureID e (created e task)),
    (marshal_fields (created e task)).
  rewrite marshal_fields_created_at, marshal_fields_updated_at, Hc, Hu.
  repeat split; try done.
  unfold ensureID, marshal_id. rewrite Hid.
  case_decide; [by right | by left].
Qed.

Lemma create_empty_title_rejected_witness :
  createTask env1 (ctx "" (Some (payload "" "no title" "Done"))) db1
  = (db1, JSON StatusBadRequest (BodyMap "error" "Title is required")).
Proof.
  apply (create_empty_title_rejected env1 _ db1 (payload "" "no title" "Done"));
    reflexivity.
Defined.

Lemma create_status_default_witness :
  (exists t, body (createTask env1 req1 ∅).2 = BodyTask t /\
             Status t = "Pending") /\
  (exists t,
     body (createTask env1 (ctx "" (Some (payload "a" "" "Done"))) ∅).2
     = BodyTask t /\ Status t = "Done").
Proof.
  split.
  - destruct (create_status_default env1 req1 ∅ (createTask env1 req1 ∅).1
                (payload "a" "" "") (createTask env1 req1 ∅).2)
      as (t & d & Hr & _ & _ & Hempty & _);
      [reflexivity | vm_compute; reflexivity | reflexivity |].
    exists t. rewrite Hr. split; [reflexivity|]. apply Hempty. reflexivity.
  - destruct (create_status_default env1
                (ctx "" (Some (payload "a" "" "Done"))) ∅
                (createTask env1 (ctx "" (Some (payload "a" "" "Done"))) ∅).1
                (payload "a" "" "Done")
                (createTask env1 (ctx "" (Some (payload "a" "" "Done"))) ∅).2)
      as (t & d & Hr & _ & _ & _ & Hgiven);
      [reflexivity | vm_compute; reflexivity | reflexivity |].
    exists t. rewrite Hr. split; [reflexivity|]. apply Hgiven. discriminate.
Defined.

Lemma create_discards_caller_fields_witness :
  let c := mkContext (fun _ => "") (Some (payload "a" "" "")) in
  let c' := mkContext (fun _ => "")
              (Some (set_ID 7%N (set_CreatedAt 5 (set_UpdatedAt 6
                                                    (payload "a" "" ""))))) in
  createTask env1 c' ∅ = createTask env1 c ∅ /\
  exists t, body (createTask env1 c' ∅).2 = BodyTask t /\
            ID t = 255%N /\ CreatedAt t = 1999999 /\ UpdatedAt t = 2000001.
Proof.
  intros c c'.
  destruct (create_discards_caller_fields env1 (fun _ => "")
              ∅ (payload "a" "" "") 7%N 5 6) as [Heq Hok].
  split; [exact Heq|].
  destruct (Hok eq_refl) as (t & k & d & Hr & Hid & Hc & Hu & _).
  exists t. unfold c'. rewrite Hr.
  split; [reflexivity|]. split; [exact Hid|]. split; [exact Hc|]. exact Hu.
Defined.

(** ** Fetching by id *)

Section GetByID.

Variables (e : Env) (c : Context) (db : Collection) (oid : ObjectID).
Hypothesis Hid : ObjectIDFromHex (Param c "id") = Some oid.
Hypothesis Hup : db_err e = false.

Lemma getTaskByID_found (d : Doc) (t : Task) :
  db !! oid = Some d ->
  Decode oid d = Some t ->
  getTaskByID e c db = (db, JSON StatusOK (BodyTask t)).
Proof.
  intros Hd Ht. unfold getTaskByID, FindOne. by rewrite Hid, Hup, Hd, Ht.
Qed.

Lemma getTaskByID_missing :
  db !! oid = None ->
  getTaskByID e c db
  = (db, JSON StatusNotFound (BodyMap "error" "Task not found")).
Proof.
  intros Hd. unfold getTaskByID, FindOne. by rewrite Hid, Hup, Hd.
Qed.

End GetByID.

Lemma NewDateTimeFromTime_mono (t u : Time) :
  t <= u -> NewDateTimeFromTime t <= NewDateTimeFromTime u.
Proof. intros H. unfold NewDateTimeFromTime. apply Z.div_le_mono; lia. Qed.

(** C2, as the code has it. A task created with 201 and then fetched by the
    returned id comes back with the id, title, description and status of the
    created task; its createdAt and updatedAt are the first and the second
    clock reading of the creation, each cut to whole milliseconds. So they are
    equal when the two readings fall in the same millisecond, and createdAt is
    at most updatedAt when the second reading is not before the first. The id
    the generator handed out is not the zero id, which [omitempty] would leave
    out of the stored document. *)
Theorem create_then_get
    (e e' : Env) (c c' : Context) (db db' : Collection) (r : Response)
    (t : Task) :
  createTask e c db = (db', r) ->
  r = JSON StatusCreated (BodyTask t) ->
  NewObjectID e 0 <> NilObjectID ->
  db_err e' = false ->
  ObjectIDFromHex (Param c' "id") = Some (ID t) ->
  exists t' : Task,
    getTaskByID e' c' db' = (db', JSON StatusOK (BodyTask t')) /\
    ID t' = ID t /\
    Title t' = Title t /\
    Description t' = Description t /\
    Status t' = Status t /\
    CreatedAt t' = DateTime_Time (NewDateTimeFromTime (time_Now e 0)) /\
    UpdatedAt t' = DateTime_Time (NewDateTimeFromTime (time_Now e 1)) /\
    (NewDateTimeFromTime (time_Now e 0) = NewDateTimeFromTime (time_Now e 1) ->
     CreatedAt t' = UpdatedAt t') /\
    (time_Now e 0 <= time_Now e 1 -> CreatedAt t' <= UpdatedAt t').
Proof.
  intros H Hr Hnil Hup Hid.
  destruct (createTask_Created e c db db' r H) as
    (task & _ & _ & _ & _ & -> & Hr'); [by rewrite Hr|].
  rewrite Hr in Hr'. injection Hr' as ->.
  rewrite ensureID_created by done.
  destruct (created_fields e task) as (Hi & _ & _ & _ & Hc & Hu).
  rewrite Hi in Hid.
  eexists. split.
  { eapply getTaskByID_found; eauto.
    - apply lookup_insert_eq.
    - apply Decode_marshal_fields. }
  cbn [ID Title Description Status CreatedAt UpdatedAt].
  rewrite Hc, Hu.
  split; [done|]. do 5 (split; [done|]). split.
  - by intros ->.
  - intros Hle. unfold DateTime_Time.
    apply Z.mul_le_mono_nonneg_r; [lia|]. by apply NewDateTimeFromTime_mono.
Qed.

Lemma create_then_get_witness :
  exists t' : Task,
    getTaskByID (env_at 0 0 0%N) (ctx hex_b None) db1
    = (db1, JSON StatusOK (BodyTask t')) /\
    Title t' = "a" /\ Description t' = "" /\ Status t' = "Pending" /\
    CreatedAt t' <= UpdatedAt t'.
Proof.
  destruct (create_then_get env1 (env_at 0 0 0%N) req1 (ctx hex_b None)
              ∅ db1 (createTask env1 req1 ∅).2
              (created env1 (payload "a" "" "")))
    as (t' & Hget & _ & Hti & Hde & Hst & _ & _ & _ & Hle);
    [vm_compute; reflexivity | vm_compute; reflexivity | vm_compute; discriminate
    | reflexivity | vm_compute; reflexivity |].
  exists t'. split; [exact Hget|]. split; [exact Hti|]. split; [exact Hde|].
  split; [exact Hst|]. apply Hle. vm_compute. discriminate.
Defined.

(** C2 as the specification words it fails: the two clock readings of one
    creation can fall in different milliseconds, and the fetched task then
    has createdAt before updatedAt. *)
Lemma create_then_get_timestamps_differ :
  let t := created env1 (payload "a" "" "") in
  let t' := mkTask 255%N "a" "" "Pending" 1000000 2000000 in
  createTask env1 req1 ∅ = (db1, JSON StatusCreated (BodyTask t)) /\
  ObjectIDFromHex hex_b = Some (ID t) /\
  getTaskByID (env_at 0 0 0%N) (ctx hex_b None) db1
  = (db1, JSON StatusOK (BodyTask t')) /\
  Title t' = Title t /\ Description t' = Description t /\
  Status t' = Status t /\
  CreatedAt t' <> UpdatedAt t'.
Proof.
  repeat split; try (vm_compute; reflexivity). vm_compute. discriminate.
Qed.

(** ** Update *)

Section Update.

Variables (e : Env) (c : Context) (db : Collection).

Lemma updateTask_matched (oid : ObjectID) (d : Doc) (update : Task) :
  ObjectIDFromHex (Param c "id") = Some oid ->
  Bind c = Some update ->
  db_err e = false ->
  db !! oid = Some d ->
  updateTask e c db
  = (<[oid := updateData (set_UpdatedAt (time_Now e 0) update) ∪ d]> db,
     JSON StatusOK (BodyMap "message" "Task updated successfully")).
Proof.
  intros Hid Hb Hup Hd. unfold updateTask, UpdateOne.
  by rewrite Hid, Hb, Hup, Hd.
Qed.

Lemma updateTask_unmatched (oid : ObjectID) (update : Task) :
  ObjectIDFromHex (Param c "id") = Some oid ->
  Bind c = Some update ->
  db_err e = false ->
  db !! oid = None ->
  updateTask e c db
  = (db, JSON StatusNotFound (BodyMap "error" "Task not found")).
Proof.
  intros Hid Hb Hup Hd. unfold updateTask, UpdateOne.
  by rewrite Hid, Hb, Hup, Hd.
Qed.

(** A 200 from [updateTask] comes from the matched branch only. *)
Lemma updateTask_OK (db' : Collection) (r : Response) :
  updateTask e c db = (db', r) ->
  status r = StatusOK ->
  exists oid d update,
    ObjectIDFromHex (Param c "id") = Some oid /\
    Bind c = Some update /\
    db_err e = false /\
    db !! oid = Some d /\
    db' = <[oid := updateData (set_UpdatedAt (time_Now e 0) update) ∪ d]> db.
Proof.
  unfold updateTask, UpdateOne. intros H Hs.
  destruct (ObjectIDFromHex (Param c "id")) as [oid|];
    [|by inversion H; subst].
  destruct (Bind c) as [update|]; [|by inversion H; subst].
  destruct (db_err e); [by inversion H; subst|].
  destruct (db !! oid) as [d|] eqn:Hd; [|by inversion H; subst].
  inversion H; subst. by exists oid, d, update.
Qed.

End Update.

(** The fields of the matched document after [$set]. *)
Lemma set_fields (u : Task) (d : Doc) :
  let d' := updateData u ∪ d in
  d' !! "title" = Some (BString (Title u)) /\
  d' !! "description" = Some (BString (Description u)) /\
  d' !! "status" = Some (BString (Status u)) /\
  d' !! "updated_at" = Some (BDateTime (NewDateTimeFromTime (UpdatedAt u))) /\
  (forall k : string,
     k <> "title" -> k <> "description" -> k <> "status" ->
     k <> "updated_at" -> d' !! k = d !! k).
Proof.
  cbn zeta. rewrite !set_lookup, !updateData_lookup.
  repeat (split; [by repeat case_decide|]).
  intros k ? ? ? ?. rewrite set_lookup, updateData_lookup.
  by repeat case_decide.
Qed.

(** A record that decoded before [$set] decodes after it, with the four
    written fields replaced. *)
Lemma Decode_set (oid : ObjectID) (u : Task) (d : Doc) (t : Task) :
  Decode oid d = Some t ->
  Decode oid (updateData u ∪ d)
  = Some {| ID := ID t;
            Title := Title u;
            Description := Description u;
            Status := Status u;
            CreatedAt := CreatedAt t;
            UpdatedAt := DateTime_Time (NewDateTimeFromTime (UpdatedAt u)) |}.
Proof.
  destruct (set_fields u d) as (Hti & Hde & Hst & Hua & Hframe).
  intros Ht. unfold Decode in *.
  rewrite Hti, Hde, Hst, Hua, (Hframe "created_at") by done.
  destruct (decode_string (d !! "title")); [|done].
  destruct (decode_string (d !! "description")); [|done].
  destruct (decode_string (d !! "status")); [|done].
  destruct (decode_time (d !! "created_at")); [|done].
  destruct (decode_time (d !! "updated_at")); [|done].
  by injection Ht as <-.
Qed.

(** C1. Update of an existing task, with a payload that decoded: the stored
    record keeps its id, its title, description, status and updatedAt are
    rewritten (a field the payload decoded as empty is stored empty), and
    every other field of the record, createdAt among them, is as before. *)
Theorem update_overwrites
    (e : Env) (c : Context) (db : Collection) (oid : ObjectID) (d : Doc)
    (update : Task) :
  ObjectIDFromHex (Param c "id") = Some oid ->
  db !! oid = Some d ->
  Bind c = Some update ->
  db_err e = false ->
  exists d' : Doc,
    updateTask e c db
    = (<[oid := d']> db,
       JSON StatusOK (BodyMap "message" "Task updated successfully")) /\
    d' !! "title" = Some (BString (Title update)) /\
    d' !! "description" = Some (BString (Description update)) /\
    d' !! "status" = Some (BString (Status update)) /\
    d' !! "updated_at"
    = Some (BDateTime (NewDateTimeFromTime (time_Now e 0))) /\
    (forall k : string,
       k <> "title" -> k <> "description" -> k <> "status" ->
       k <> "updated_at" -> d' !! k = d !! k) /\
    d' !! "created_at" = d !! "created_at" /\
    (forall t : Task,
       Decode oid d = Some t ->
       Decode oid d'
       = Some {| ID := ID t;
                 Title := Title update;
                 Description := Description update;
                 Status := Status update;
                 CreatedAt := CreatedAt t;
                 UpdatedAt :=
                   DateTime_Time (NewDateTimeFromTime (time_Now e 0)) |}).
Proof.
  intros Hid Hd Hb Hup.
  exists (updateData (set_UpdatedAt (time_Now e 0) update) ∪ d).
  split; [by apply updateTask_matched|].
  destruct (set_fields (set_UpdatedAt (time_Now e 0) update) d)
    as (Hti & Hde & Hst & Hua & Hframe).
  cbn [set_UpdatedAt Title Description Status UpdatedAt] in Hti, Hde, Hst, Hua.
  do 5 (split; [done|]).
  split; [by apply Hframe|].
  intros t Ht.
  apply (Decode_set oid (set_UpdatedAt (time_Now e 0) update)) in Ht.
  exact Ht.
Qed.

Lemma update_overwrites_witness :
  exists d' : Doc,
    updateTask (env_at 5000000 5000000 0%N)
      (ctx hex_b (Some (payload "X" "" "Done"))) db1
    = (<[255%N := d']> db1,
       JSON StatusOK (BodyMap "message" "Task updated successfully")) /\
    d' !! "title" = Some (BString "X") /\
    d' !! "description" = Some (BString "") /\
    d' !! "created_at" = Some (BDateTime 1).
Proof.
  destruct (update_overwrites (env_at 5000000 5000000 0%N)
              (ctx hex_b (Some (payload "X" "" "Done"))) db1 255%N
              (marshal_fields (created env1 (payload "a" "" "")))
              (payload "X" "" "Done"))
    as (d' & Hupd & Hti & Hde & _ & _ & _ & Hca & _);
    [vm_compute; reflexivity | vm_compute; reflexivity | reflexivity
    | reflexivity |].
  exists d'. split; [exact Hupd|]. split; [exact Hti|]. split; [exact Hde|].
  rewrite Hca. vm_compute. reflexivity.
Defined.

Lemma NewDateTimeFromTime_bounds (t : Time) :
  DateTime_Time (NewDateTimeFromTime t) <= t
  < DateTime_Time (NewDateTimeFromTime t + 1).
Proof.
  unfold DateTime_Time, NewDateTimeFromTime.
  pose proof (Z.div_mod t 1000000 ltac:(lia)).
  pose proof (Z.mod_pos_bound t 1000000 ltac:(lia)).
  lia.
Qed.

(** C8, as the code has it. A successful update stores as updatedAt the clock
    reading taken during the update, cut to whole milliseconds. The stored
    value is not before the prior updatedAt when the reading is not before
    it, and is strictly after the prior updatedAt exactly when the reading is
    at least one millisecond past it. *)
Theorem update_stamps_updatedAt
    (e : Env) (c : Context) (db db' : Collection) (r : Response)
    (oid : ObjectID) (d : Doc) (prior : DateTime) :
  updateTask e c db = (db', r) ->
  status r = StatusOK ->
  ObjectIDFromHex (Param c "id") = Some oid ->
  db !! oid = Some d ->
  d !! "updated_at" = Some (BDateTime prior) ->
  exists d' : Doc,
    db' !! oid = Some d' /\
    d' !! "updated_at"
    = Some (BDateTime (NewDateTimeFromTime (time_Now e 0))) /\
    (DateTime_Time prior <= time_Now e 0 ->
     prior <= NewDateTimeFromTime (time_Now e 0)) /\
    (prior < NewDateTimeFromTime (time_Now e 0) <->
     DateTime_Time (prior + 1) <= time_Now e 0).
Proof.
  intros H Hs Hid Hd Hprior.
  destruct (updateTask_OK e c db db' r H Hs)
    as (oid' & d0 & update & Hid' & _ & _ & Hd' & ->).
  assert (oid' = oid) as -> by congruence.
  assert (d0 = d) as -> by congruence.
  eexists. split; [apply lookup_insert_eq|].
  destruct (set_fields (set_UpdatedAt (time_Now e 0) update) d)
    as (_ & _ & _ & Hua & _).
  split; [exact Hua|].
  pose proof (NewDateTimeFromTime_bounds (time_Now e 0)) as Hb.
  unfold DateTime_Time in *. split; [|split]; lia.
Qed.

Lemma update_stamps_updatedAt_witness :
  exists d' : Doc,
    (updateTask (env_at 5000000 5000000 0%N)
       (ctx hex_b (Some (payload "X" "" "Done"))) db1).1 !! 255%N = Some d' /\
    d' !! "updated_at" = Some (BDateTime 5) /\
    2 < 5.
Proof.
  destruct (update_stamps_updatedAt (env_at 5000000 5000000 0%N)
              (ctx hex_b (Some (payload "X" "" "Done"))) db1
              (updateTask (env_at 5000000 5000000 0%N)
                 (ctx hex_b (Some (payload "X" "" "Done"))) db1).1
              (updateTask (env_at 5000000 5000000 0%N)
                 (ctx hex_b (Some (payload "X" "" "Done"))) db1).2
              255%N (marshal_fields (created env1 (payload "a" "" ""))) 2)
    as (d' & Hd' & Hua & _ & Hlt);
    [vm_compute; reflexivity | vm_compute; reflexivity | vm_compute; reflexivity
    | vm_compute; reflexivity | vm_compute; reflexivity |].
  exists d'. split; [exact Hd'|]. split; [exact Hua|].
  apply Hlt. vm_compute. discriminate.
Defined.

(** C8 as the specification words it fails: a task created and then updated
    within one millisecond, on a clock that advanced between every reading,
    has the same updatedAt before and after the update. *)
Lemma update_within_one_millisecond :
  let envA := env_at 1000000 1000100 255%N in
  let envB := env_at 1000200 1000200 0%N in
  let dbA := (createTask envA req1 ∅).1 in
  let dbB := (updateTask envB (ctx hex_b (Some (payload "X" "" "Done"))) dbA).1 in
  let before := mkTask 255%N "a" "" "Pending" 1000000 1000000 in
  let after := mkTask 255%N "X" "" "Done" 1000000 1000000 in
  time_Now envA 0 < time_Now envA 1 < time_Now envB 0 /\
  status (createTask envA req1 ∅).2 = StatusCreated /\
  getTaskByID (env_at 0 0 0%N) (ctx hex_b None) dbA
  = (dbA, JSON StatusOK (BodyTask before)) /\
  updateTask envB (ctx hex_b (Some (payload "X" "" "Done"))) dbA
  = (dbB, JSON StatusOK (BodyMap "message" "Task updated successfully")) /\
  getTaskByID (env_at 0 0 0%N) (ctx hex_b None) dbB
  = (dbB, JSON StatusOK (BodyTask after)) /\
  ~ UpdatedAt before < UpdatedAt after.
Proof.
  cbn zeta. split; [by vm_compute|].
  do 4 (split; [vm_compute; reflexivity|]).
  cbn. lia.
Qed.

(** C10. Update of an existing task with a decodable payload whose title is
    empty answers 200 and stores the empty title, although creation with the
    same payload is refused with 400. *)
Theorem update_accepts_empty_title
    (e : Env) (c : Context) (db : Collection) (oid : ObjectID) (d : Doc)
    (update : Task) :
  ObjectIDFromHex (Param c "id") = Some oid ->
  db !! oid = Some d ->
  Bind c = Some update ->
  Title update = "" ->
  db_err e = false ->
  exists (db' : Collection) (d' : Doc),
    updateTask e c db
    = (db', JSON StatusOK (BodyMap "message" "Task updated successfully")) /\
    db' !! oid = Some d' /\
    d' !! "title" = Some (BString "") /\
    (forall t : Task, Decode oid d = Some t ->
       exists t', Decode oid d' = Some t' /\ Title t' = "") /\
    (forall e0 : Env,
       createTask e0 c db
       = (db, JSON StatusBadRequest (BodyMap "error" "Title is required"))).
Proof.
  intros Hid Hd Hb Ht Hup.
  eexists _, _. split; [by apply updateTask_matched|].
  split; [apply lookup_insert_eq|].
  destruct (set_fields (set_UpdatedAt (time_Now e 0) update) d)
    as (Hti & Hde & Hst & Hua & Hframe).
  cbn [set_UpdatedAt Title Description Status UpdatedAt] in Hti, Hde, Hst, Hua.
  split; [by rewrite Hti, Ht|]. split.
  - intros t Hdec.
    apply (Decode_set oid (set_UpdatedAt (time_Now e 0) update)) in Hdec.
    eexists; split; [exact Hdec|]. exact Ht.
  - intros e0. unfold createTask. rewrite Hb.
    by destruct (decide (Title update = "")).
Qed.

Lemma update_accepts_empty_title_witness :
  exists (db' : Collection) (d' : Doc),
    updateTask (env_at 5000000 5000000 0%N)
      (ctx hex_b (Some (payload "" "" "Done"))) db1
    = (db', JSON StatusOK (BodyMap "message" "Task updated successfully")) /\
    db' !! 255%N = Some d' /\
    d' !! "title" = Some (BString "").
Proof.
  destruct (update_accepts_empty_title (env_at 5000000 5000000 0%N)
              (ctx hex_b (Some (payload "" "" "Done"))) db1 255%N
              (marshal_fields (created env1 (payload "a" "" "")))
              (payload "" "" "Done"))
    as (db' & d' & Hupd & Hd' & Hti & _);
    [vm_compute; reflexivity | vm_compute; reflexivity | reflexivity
    | reflexivity | reflexivity |].
  exists db', d'. split; [exact Hupd|]. split; [exact Hd'|]. exact Hti.
Defined.

(** ** Delete *)

Section Delete.

Variables (e : Env) (c : Context) (db : Collection).

Lemma deleteTask_missing (oid : ObjectID) :
  ObjectIDFromHex (Param c "id") = Some oid ->
  db_err e = false ->
  db !! oid = None ->
  deleteTask e c db
  = (db, JSON StatusNotFound (BodyMap "error" "Task not found")).
Proof.
  intros Hid Hup Hd. unfold deleteTask, DeleteOne. by rewrite Hid, Hup, Hd.
Qed.

Lemma deleteTask_deleted (oid : ObjectID) (d : Doc) :
  ObjectIDFromHex (Param c "id") = Some oid ->
  db_err e = false ->
  db !! oid = Some d ->
  deleteTask e c db
  = (delete oid db,
     JSON StatusOK (BodyMap "message" "Task deleted successfully")).
Proof.
  intros Hid Hup Hd. unfold deleteTask, DeleteOne. by rewrite Hid, Hup, Hd.
Qed.

(** A 200 from [deleteTask] means the document under the parsed id was
    removed. *)
Lemma deleteTask_OK (db' : Collection) (r : Response) :
  deleteTask e c db = (db', r) ->
  status r = StatusOK ->
  exists oid,
    ObjectIDFromHex (Param c "id") = Some oid /\
    is_Some (db !! oid) /\
    db' = delete oid db.
Proof.
  unfold deleteTask, DeleteOne. intros H Hs.
  destruct (ObjectIDFromHex (Param c "id")) as [oid|];
    [|by inversion H; subst].
  destruct (db_err e); [by inversion H; subst|].
  destruct (db !! oid) as [d|] eqn:Hd; [|by inversion H; subst].
  inversion H; subst. by exists oid.
Qed.

End Delete.

(** C7. Once a delete has answered 200, fetching the same id from a store
    that responds yields 404. *)
Theorem delete_then_get
    (e e' : Env) (c c' : Context) (db db' : Collection) (r : Response) :
  deleteTask e c db = (db', r) ->
  status r = StatusOK ->
  Param c' "id" = Param c "id" ->
  db_err e' = false ->
  getTaskByID e' c' db'
  = (db', JSON StatusNotFound (BodyMap "error" "Task not found")).
Proof.
  intros H Hs Hp Hup.
  destruct (deleteTask_OK e c db db' r H Hs) as (oid & Hid & _ & ->).
  apply getTaskByID_missing with oid; [by rewrite Hp | done |].
  apply lookup_delete_eq.
Qed.

Lemma delete_then_get_witness :
  status (deleteTask (env_at 0 0 0%N) (ctx hex_b None) db1).2 = StatusOK /\
  getTaskByID (env_at 0 0 0%N) (ctx hex_b None)
    (deleteTask (env_at 0 0 0%N) (ctx hex_b None) db1).1
  = ((deleteTask (env_at 0 0 0%N) (ctx hex_b None) db1).1,
     JSON StatusNotFound (BodyMap "error" "Task not found")).
Proof.
  split; [vm_compute; reflexivity|].
  apply (delete_then_get (env_at 0 0 0%N) (env_at 0 0 0%N)
           (ctx hex_b None) (ctx hex_b None) db1 _
           (deleteTask (env_at 0 0 0%N) (ctx hex_b None) db1).2);
    [vm_compute; reflexivity | vm_compute; reflexivity | reflexivity
    | reflexivity].
Defined.

(** ** Identifier errors *)

(** C3. The three operations that take an id agree on identifier errors. An
    id string that does not parse is answered with 400 by all three, whatever
    the body and the state of the store. An id that parses and matches no
    stored record is answered with 404 by all three, the store responding and,
    for update, the payload having decoded (the payload is decoded before the
    store is asked). None of these answers changes the collection. *)
Theorem id_errors_agree (e : Env) (c : Context) (db : Collection) :
  (ObjectIDFromHex (Param c "id") = None ->
   getTaskByID e c db
   = (db, JSON StatusBadRequest (BodyMap "error" "Invalid ID")) /\
   updateTask e c db
   = (db, JSON StatusBadRequest (BodyMap "error" "Invalid ID")) /\
   deleteTask e c db
   = (db, JSON StatusBadRequest (BodyMap "error" "Invalid ID"))) /\
  (forall oid : ObjectID,
     ObjectIDFromHex (Param c "id") = Some oid ->
     db !! oid = None ->
     db_err e = false ->
     getTaskByID e c db
     = (db, JSON StatusNotFound (BodyMap "error" "Task not found")) /\
     (is_Some (Bind c) ->
      updateTask e c db
      = (db, JSON StatusNotFound (BodyMap "error" "Task not found"))) /\
     deleteTask e c db
     = (db, JSON StatusNotFound (BodyMap "error" "Task not found"))).
Proof.
  split.
  - intros Hid. unfold getTaskByID, updateTask, deleteTask. by rewrite Hid.
  - intros oid Hid Hd Hup. split; [by apply getTaskByID_missing with oid|].
    split; [|by apply deleteTask_missing with oid].
    intros [update Hb]. by apply updateTask_unmatched with oid update.
Qed.

Lemma id_errors_agree_witness :
  (status (getTaskByID (env_at 0 0 0%N) (ctx "42" None) db1).2
   = StatusBadRequest /\
   status (updateTask (env_at 0 0 0%N) (ctx "42" None) db1).2
   = StatusBadRequest /\
   status (deleteTask (env_at 0 0 0%N) (ctx "42" None) db1).2
   = StatusBadRequest) /\
  (status (getTaskByID (env_at 0 0 0%N)
             (ctx hex_a (Some (payload "X" "" "Done"))) db1).2
   = StatusNotFound /\
   status (updateTask (env_at 0 0 0%N)
             (ctx hex_a (Some (payload "X" "" "Done"))) db1).2
   = StatusNotFound /\
   status (deleteTask (env_at 0 0 0%N)
             (ctx hex_a (Some (payload "X" "" "Done"))) db1).2
   = StatusNotFound).
Proof.
  split.
  - destruct (id_errors_agree (env_at 0 0 0%N) (ctx "42" None) db1)
      as [Hbad _].
    destruct (Hbad eq_refl) as (-> & -> & ->). repeat split.
  - destruct (id_errors_agree (env_at 0 0 0%N)
                (ctx hex_a (Some (payload "X" "" "Done"))) db1)
      as [_ Hmiss].
    destruct (Hmiss 31453467242603790624579205707%N)
      as (-> & Hupd & ->);
      [vm_compute; reflexivity | vm_compute; reflexivity | reflexivity |].
    rewrite Hupd by (eexists; reflexivity). repeat split.
Defined.

(** ** Listing *)

(** [_id] decodes into the [ID] field. *)
Lemma Decode_ID (id : ObjectID) (d : Doc) (t : Task) :
  Decode id d = Some t -> ID t = id.
Proof.
  unfold Decode. intros H.
  destruct (decode_string (d !! "title")); [|done].
  destruct (decode_string (d !! "description")); [|done].
  destruct (decode_string (d !! "status")); [|done].
  destruct (decode_time (d !! "created_at")); [|done].
  destruct (decode_time (d !! "updated_at")); [|done].
  by injection H as <-.
Qed.

(** The cursor loop appends the decoded documents, in cursor order. *)
Lemma decode_cursor_all (cursor : list (ObjectID * Doc)) :
  forall tasks : list Task,
    Forall (fun p => is_Some (Decode p.1 p.2)) cursor ->
    exists ts,
      decode_cursor cursor tasks = Some (tasks ++ ts)%list /\
      Forall2 (fun p t => Decode p.1 p.2 = Some t) cursor ts.
Proof.
  induction cursor as [|[id d] cursor IH]; intros tasks Hall.
  - exists []. by rewrite app_nil_r.
  - inversion Hall as [|? ? [t Ht] Hall']; subst. simpl in Ht.
    destruct (IH (tasks ++ [t])%list Hall') as (ts & Hts & HF).
    exists (t :: ts). simpl. rewrite Ht, Hts, <- app_assoc.
    split; [done|]. by constructor.
Qed.

Lemma decodable_empty : decodable ∅.
Proof. intros id d H. by rewrite lookup_empty in H. Qed.

Lemma decodable_insert (db : Collection) (id : ObjectID) (d : Doc) :
  decodable db -> is_Some (Decode id d) -> decodable (<[id := d]> db).
Proof.
  intros Hdb Hd id' d'. rewrite lookup_insert. case_decide.
  - intros [= <-]. by subst.
  - apply Hdb.
Qed.

(** What the service writes it can read back: creation keeps the collection
    decodable and adds one document exactly when it answers 201. *)
Lemma createTask_decodable
    (e : Env) (c : Context) (db db' : Collection) (r : Response) :
  createTask e c db = (db', r) ->
  decodable db ->
  decodable db' /\
  size db' = (if decide (status r = StatusCreated) then S (size db)
              else size db).
Proof.
  intros H Hdb. case_decide as Hs.
  - destruct (createTask_Created e c db db' r H Hs)
      as (task & _ & _ & _ & Hf & -> & _).
    split; [|by apply map_size_insert_None].
    apply decodable_insert; [done|]. by rewrite Decode_marshal_fields.
  - by rewrite (createTask_rejected e c db db' r H Hs).
Qed.

Lemma create_each_all_created (reqs : list (Env * Context)) :
  forall (db db' : Collection) (rs : list Response),
    create_each reqs db = (db', rs) ->
    Forall (fun r => status r = StatusCreated) rs ->
    decodable db ->
    decodable db' /\ size db' = (size db + length reqs)%nat.
Proof.
  induction reqs as [|[e c] reqs IH]; intros db db' rs H Hall Hdb; simpl in H.
  - injection H as <- <-. split; [done|]. simpl. lia.
  - destruct (createTask e c db) as [db1' r] eqn:Hc.
    destruct (create_each reqs db1') as [db2 rs'] eqn:Hr.
    injection H as <- <-. inversion Hall as [|? ? Hs Hall']; subst.
    destruct (createTask_decodable e c db db1' r Hc Hdb) as [Hdb1 Hsz].
    rewrite decide_True in Hsz by done.
    destruct (IH db1' db2 rs' Hr Hall' Hdb1) as [Hdb2 Hsz2].
    split; [done|]. rewrite Hsz2, Hsz. simpl. lia.
Qed.

(** Update and delete keep the collection decodable as well, so every
    collection the five handlers can reach from the empty one is. *)
Lemma updateTask_decodable
    (e : Env) (c : Context) (db db' : Collection) (r : Response) :
  updateTask e c db = (db', r) ->
  decodable db ->
  decodable db'.
Proof.
  unfold updateTask, UpdateOne. intros H Hdb.
  destruct (ObjectIDFromHex (Param c "id")) as [oid|]; [|by inversion H; subst].
  destruct (Bind c) as [update|]; [|by inversion H; subst].
  destruct (db_err e); [by inversion H; subst|].
  destruct (db !! oid) as [d|] eqn:Hd; [|by inversion H; subst].
  inversion H; subst. apply decodable_insert; [done|].
  destruct (Hdb oid d Hd) as [t Ht].
  by rewrite (Decode_set oid _ d t Ht).
Qed.

Lemma deleteTask_decodable
    (e : Env) (c : Context) (db db' : Collection) (r : Response) :
  deleteTask e c db = (db', r) ->
  decodable db ->
  decodable db'.
Proof.
  unfold deleteTask, DeleteOne. intros H Hdb.
  destruct (ObjectIDFromHex (Param c "id")) as [oid|]; [|by inversion H; subst].
  destruct (db_err e); [by inversion H; subst|].
  destruct (db !! oid) as [d|] eqn:Hd; [|by inversion H; subst].
  inversion H; subst. intros id d'. rewrite lookup_delete.
  destruct (decide (oid = id)); [done|]. exact (Hdb id d').
Qed.

Lemma reads_keep_collection (e : Env) (c : Context) (db : Collection) :
  (getAllTasks e c db).1 = db /\ (getTaskByID e c db).1 = db.
Proof.
  unfold getAllTasks, getTaskByID, Find, FindOne.
  destruct (db_err e); simpl.
  - by destruct (ObjectIDFromHex (Param c "id")).
  - split.
    + by destruct (decode_cursor (map_to_list db) []).
    + destruct (ObjectIDFromHex (Param c "id")) as [oid|]; [|done].
      destruct (db !! oid) as [d|]; [|done]. by destruct (Decode oid d).
Qed.

Lemma getAllTasks_all (e : Env) (c : Context) (db : Collection) :
  db_err e = false ->
  decodable db ->
  exists tasks : list Task,
    getAllTasks e c db = (db, JSON StatusOK (BodyTasks tasks)) /\
    Forall2 (fun p t => Decode p.1 p.2 = Some t) (map_to_list db) tasks.
Proof.
  intros Hup Hdb. unfold getAllTasks, Find. rewrite Hup.
  destruct (decode_cursor_all (map_to_list db) []) as (ts & Hts & HF).
  { apply Forall_forall. intros [id d] Hin. apply Hdb.
    by apply elem_of_map_to_list. }
  exists ts. by rewrite Hts.
Qed.

(** C6. When the store responds, listing answers 200 with exactly the stored
    tasks: one entry per stored document, each the decoded document (the
    documents being ones that decode, as all that the service writes do).
    An empty collection gives the empty sequence, and after N successful
    creations on an empty collection the listing has N entries. *)
Theorem list_returns_stored (e : Env) (c : Context) :
  db_err e = false ->
  (forall db : Collection,
     decodable db ->
     exists tasks : list Task,
       getAllTasks e c db = (db, JSON StatusOK (BodyTasks tasks)) /\
       Forall2 (fun p t => Decode p.1 p.2 = Some t) (map_to_list db) tasks /\
       length tasks = size db /\
       (forall t : Task,
          t ∈ tasks <->
          exists d : Doc, db !! ID t = Some d /\ Decode (ID t) d = Some t)) /\
  getAllTasks e c ∅ = (∅, JSON StatusOK (BodyTasks [])) /\
  (forall (reqs : list (Env * Context)) (db : Collection)
          (rs : list Response),
     create_each reqs ∅ = (db, rs) ->
     Forall (fun r => status r = StatusCreated) rs ->
     exists tasks : list Task,
       getAllTasks e c db = (db, JSON StatusOK (BodyTasks tasks)) /\
       length tasks = length reqs).
Proof.
  intros Hup.
  assert (forall db : Collection,
     decodable db ->
     exists tasks : list Task,
       getAllTasks e c db = (db, JSON StatusOK (BodyTasks tasks)) /\
       Forall2 (fun p t => Decode p.1 p.2 = Some t) (map_to_list db) tasks /\
       length tasks = size db /\
       (forall t : Task,
          t ∈ tasks <->
          exists d : Doc, db !! ID t = Some d /\ Decode (ID t) d = Some t))
    as Hgen.
  { intros db Hdb.
    destruct (getAllTasks_all e c db Hup Hdb) as (tasks & Hget & HF).
    exists tasks. split; [done|]. split; [done|]. split.
    { by rewrite <- (Forall2_length _ _ _ HF), length_map_to_list. }
    intros t. split.
    - intros Hin. apply list_elem_of_lookup in Hin as [i Hi].
      destruct (Forall2_lookup_r _ _ _ _ _ HF Hi) as ([id d] & Hp & Hdec).
      simpl in Hdec. pose proof (Decode_ID _ _ _ Hdec) as ->.
      exists d. split; [|done].
      apply elem_of_map_to_list. by eapply list_elem_of_lookup_2.
    - intros (d & Hd & Hdec).
      apply elem_of_map_to_list, list_elem_of_lookup in Hd as [i Hi].
      destruct (Forall2_lookup_l _ _ _ _ _ HF Hi) as (t' & Ht' & Hdec').
      simpl in Hdec'. assert (t' = t) as -> by congruence.
      by eapply list_elem_of_lookup_2. }
  split; [done|]. split.
  - unfold getAllTasks, Find. by rewrite Hup, map_to_list_empty.
  - intros reqs db rs Hrun Hall.
    destruct (create_each_all_created reqs ∅ db rs Hrun Hall decodable_empty)
      as [Hdb Hsz].
    destruct (Hgen db Hdb) as (tasks & Hget & _ & Hlen & _).
    exists tasks. split; [done|].
    by rewrite Hlen, Hsz, map_size_empty.
Qed.

Lemma list_returns_stored_witness :
  (exists tasks : list Task,
     getAllTasks (env_at 0 0 0%N) (ctx "" None) db1
     = (db1, JSON StatusOK (BodyTasks tasks)) /\
     length tasks = 1%nat) /\
  getAllTasks (env_at 0 0 0%N) (ctx "" None) ∅
  = (∅, JSON StatusOK (BodyTasks [])).
Proof.
  destruct (list_returns_stored (env_at 0 0 0%N) (ctx "" None) eq_refl)
    as (_ & Hempty & Hrun).
  split; [|exact Hempty].
  destruct (Hrun [(env1, req1)] db1 [(createTask env1 req1 ∅).2])
    as (tasks & Hget & Hlen);
    [vm_compute; reflexivity
    | constructor; [vm_compute; reflexivity | constructor] |].
  exists tasks. split; [exact Hget | exact Hlen].
Defined.

(** * Further properties of the handlers *)

(** Case analysis over every branch of every handler, following the order
    in which the handlers test. *)
Ltac handler_step :=
  match goal with
  | |- context [ObjectIDFromHex ?s] => destruct (ObjectIDFromHex s) eqn:?
  | |- context [Bind ?c] => destruct (Bind c) eqn:?
  | |- context [decide (Title ?t = ?v)] => destruct (decide (Title t = v))
  | |- context [db_err ?e] => destruct (db_err e) eqn:?
  | |- context [decode_cursor ?l ?a] => destruct (decode_cursor l a) eqn:?
  | |- context [@lookup ObjectID _ _ _ ?k ?m] =>
      destruct (@lookup ObjectID _ _ _ k m) eqn:?
  | |- context [Decode ?i ?d] => destruct (Decode i d) eqn:?
  | |- context [decide (1 = 0)] => destruct (decide (1 = 0)) as [?|_]; [done|]
  | |- context [decide (0 = 0)] => destruct (decide (0 = 0)) as [_|?]; [|done]
  end.

Ltac handler_branches :=
  unfold handler, createTask, getAllTasks, getTaskByID, updateTask,
    deleteTask, InsertOne, Find, FindOne, UpdateOne, DeleteOne;
  cbn beta iota zeta;
  repeat (handler_step; cbn beta iota zeta delta [fst snd status body]).

Ltac status_arith :=
  unfold StatusOK, StatusCreated, StatusBadRequest, StatusNotFound,
    StatusInternalServerError in *; lia.

(** ** Answers *)

(** X1. Each route answers with one of the statuses its handler names: creation
    with 201, 400 or 500, listing with 200 or 500, and the three routes that
    take an id with 200, 400, 404 or 500. *)
Theorem handler_status_codes
    (rt : Route) (e : Env) (c : Context) (db : Collection) :
  let s := status (handler rt e c db).2 in
  match rt with
  | POST_tasks =>
      s = StatusCreated \/ s = StatusBadRequest \/
      s = StatusInternalServerError
  | GET_tasks => s = StatusOK \/ s = StatusInternalServerError
  | _ =>
      s = StatusOK \/ s = StatusBadRequest \/ s = StatusNotFound \/
      s = StatusInternalServerError
  end.
Proof.
  destruct rt; handler_branches; tauto.
Qed.


(** X3. The two GET routes never change the collection, and no route changes it
    when it answers with an error. *)
Theorem collection_unchanged
    (rt : Route) (e : Env) (c : Context) (db : Collection) :
  rt = GET_tasks \/ rt = GET_tasks_id \/
  400 <= status (handler rt e c db).2 ->
  (handler rt e c db).1 = db.
Proof.
  destruct rt; handler_branches; try reflexivity;
    intros [H | [H | H]]; first [discriminate H | status_arith].
Qed.

Lemma collection_unchanged_witness :
  (handler GET_tasks_id (env_at 0 0 0%N) (ctx hex_b None) db1).1 = db1 /\
  (handler DELETE_tasks_id (env_at 0 0 0%N) (ctx hex_a None) db1).1 = db1.
Proof.
  split.
  - apply (collection_unchanged GET_tasks_id). right. left. reflexivity.
  - apply (collection_unchanged DELETE_tasks_id). right. right.
    vm_compute. discriminate.
Defined.

(** X5. When the store call fails, every request that passed its checks is
    answered with 500 and the collection stays as it was. *)
Theorem store_failure_is_500 (e : Env) (c : Context) (db : Collection) :
  db_err e = true ->
  getAllTasks e c db
  = (db, JSON StatusInternalServerError
              (BodyMap "error" "Failed to fetch tasks")) /\
  (forall task : Task,
     Bind c = Some task -> Title task <> "" ->
     createTask e c db
     = (db, JSON StatusInternalServerError
                 (BodyMap "error" "Failed to create task"))) /\
  (forall oid : ObjectID,
     ObjectIDFromHex (Param c "id") = Some oid ->
     getTaskByID e c db
     = (db, JSON StatusInternalServerError
                 (BodyMap "error" "Failed to fetch task")) /\
     (is_Some (Bind c) ->
      updateTask e c db
      = (db, JSON StatusInternalServerError
                  (BodyMap "error" "Failed to update task"))) /\
     deleteTask e c db
     = (db, JSON StatusInternalServerError
                 (BodyMap "error" "Failed to delete task"))).
Proof.
  intros Hdown. split; [|split].
  - unfold getAllTasks, Find. by rewrite Hdown.
  - intros task Hb Ht. unfold createTask, InsertOne. rewrite Hb, Hdown.
    by destruct (decide (Title task = "")).
  - intros oid Hid. unfold getTaskByID, updateTask, deleteTask, FindOne,
      UpdateOne, DeleteOne. rewrite Hid, Hdown.
    split; [done|]. split; [|done]. by intros [update ->].
Qed.

Lemma store_failure_is_500_witness :
  status (getAllTasks env_down (ctx hex_b None) db1).2
  = StatusInternalServerError /\
  status (deleteTask env_down (ctx hex_b None) db1).2
  = StatusInternalServerError /\
  (deleteTask env_down (ctx hex_b None) db1).1 = db1.
Proof.
  destruct (store_failure_is_500 env_down (ctx hex_b None) db1 eq_refl)
    as (-> & _ & Hid).
  destruct (Hid 255%N eq_refl) as (_ & _ & ->). repeat split.
Defined.

(** ** Creation and the records already stored *)

(** X6. Creation never touches a record that is already stored, whatever it
    answers. *)
Theorem create_keeps_existing
    (e : Env) (c : Context) (db : Collection) (k : ObjectID) (d : Doc) :
  db !! k = Some d ->
  (createTask e c db).1 !! k = Some d.
Proof.
  intros Hk. destruct (createTask e c db) as [db' r] eqn:H.
  destruct (decide (status r = StatusCreated)) as [Hs|Hs].
  - destruct (createTask_Created e c db db' r H Hs)
      as (task & _ & _ & _ & Hf & -> & _).
    cbn. rewrite lookup_insert_ne; [done|]. congruence.
  - by rewrite (createTask_rejected e c db db' r H Hs).
Qed.

Lemma create_keeps_existing_witness :
  (createTask env1 (ctx "" (Some (payload "b" "" ""))) db1).1 !! 255%N
  = Some (marshal_fields (created env1 (payload "a" "" ""))).
Proof.
  apply (create_keeps_existing env1 _ db1 255%N).
  vm_compute. reflexivity.
Defined.

(** X7. An id from the generator that is already in the collection is not
    reused: creation answers 500 and stores nothing. *)
Theorem create_id_collision
    (e : Env) (c : Context) (db : Collection) (task : Task) :
  Bind c = Some task ->
  Title task <> "" ->
  NewObjectID e 0 <> NilObjectID ->
  is_Some (db !! NewObjectID e 0) ->
  createTask e c db
  = (db, JSON StatusInternalServerError
              (BodyMap "error" "Failed to create task")).
Proof.
  intros Hb Ht Hn [d Hd]. unfold createTask, InsertOne. rewrite Hb.
  destruct (decide (Title task = "")); [done|].
  fold (created e task). rewrite ensureID_created, Hd by done.
  by destruct (db_err e).
Qed.

Lemma create_id_collision_witness :
  createTask env1 (ctx "" (Some (payload "b" "" ""))) db1
  = (db1, JSON StatusInternalServerError
               (BodyMap "error" "Failed to create task")).
Proof.
  apply (create_id_collision env1 _ db1 (payload "b" "" ""));
    [reflexivity | discriminate | discriminate | ].
  exists (marshal_fields (created env1 (payload "a" "" ""))).
  vm_compute. reflexivity.
Defined.

(** ** Which ids are stored *)

(** X8. Only creation adds an id and only deletion removes one, each at most one
    per request; listing, fetching and updating leave the set of stored ids
    as it was. *)
Theorem stored_ids_change
    (rt : Route) (e : Env) (c : Context) (db : Collection) :
  let db' := (handler rt e c db).1 in
  match rt with
  | POST_tasks => dom db ⊆ dom db' /\ (size db' <= S (size db))%nat
  | DELETE_tasks_id => dom db' ⊆ dom db /\ (size db <= S (size db'))%nat
  | _ => dom db' = dom db
  end.
Proof.
  destruct rt; handler_branches; try done; try (split; [done | lia]).
  - rewrite dom_insert_L, map_size_insert_None by done.
    split; [apply union_subseteq_r | lia].
  - by apply dom_insert_lookup_L.
  - rewrite dom_delete_L, map_size_delete_Some by done.
    split; [apply subseteq_difference_l; done|].
    destruct (size db); simpl; lia.
Qed.

(** ** Deletion *)

(** X9. A delete that answers 200 removed exactly the record under the id of the
    request: that record was stored and is gone, every other record is as
    before, and the collection is one record smaller. *)
Theorem delete_removes_one
    (e : Env) (c : Context) (db db' : Collection) (r : Response) :
  deleteTask e c db = (db', r) ->
  status r = StatusOK ->
  exists oid : ObjectID,
    ObjectIDFromHex (Param c "id") = Some oid /\
    is_Some (db !! oid) /\
    db' !! oid = None /\
    (forall k : ObjectID, k <> oid -> db' !! k = db !! k) /\
    size db = S (size db').
Proof.
  intros H Hs.
  destruct (deleteTask_OK e c db db' r H Hs) as (oid & Hid & Hd & ->).
  exists oid. split; [done|]. split; [done|].
  split; [apply lookup_delete_eq|]. split.
  - intros k Hk. by apply lookup_delete_ne.
  - destruct Hd as [d Hd].
    rewrite <- (insert_id db oid d Hd) at 1.
    rewrite <- insert_delete_eq.
    apply map_size_insert_None, lookup_delete_eq.
Qed.

Lemma delete_removes_one_witness :
  exists oid : ObjectID,
    ObjectIDFromHex hex_b = Some oid /\
    (deleteTask (env_at 0 0 0%N) (ctx hex_b None) db1).1 !! oid = None /\
    size db1 = S (size (deleteTask (env_at 0 0 0%N) (ctx hex_b None) db1).1).
Proof.
  destruct (delete_removes_one (env_at 0 0 0%N) (ctx hex_b None) db1
              (deleteTask (env_at 0 0 0%N) (ctx hex_b None) db1).1
              (deleteTask (env_at 0 0 0%N) (ctx hex_b None) db1).2)
    as (oid & Hid & _ & Hgone & _ & Hsz);
    [vm_compute; reflexivity | vm_compute; reflexivity |].
  exists oid. split; [exact Hid|]. split; [exact Hgone | exact Hsz].
Defined.

(** X10. After a delete has answered 200, a second delete of the same id and an
    update of it (its payload decoded) are both answered with 404 and change
    nothing. *)
Theorem deleted_stays_gone
    (e e' : Env) (c c' : Context) (db db' : Collection) (r : Response) :
  deleteTask e c db = (db', r) ->
  status r = StatusOK ->
  Param c' "id" = Param c "id" ->
  db_err e' = false ->
  deleteTask e' c' db'
  = (db', JSON StatusNotFound (BodyMap "error" "Task not found")) /\
  (is_Some (Bind c') ->
   updateTask e' c' db'
   = (db', JSON StatusNotFound (BodyMap "error" "Task not found"))).
Proof.
  intros H Hs Hp Hup.
  destruct (deleteTask_OK e c db db' r H Hs) as (oid & Hid & _ & ->).
  rewrite <- Hp in Hid. split.
  - apply deleteTask_missing with oid; [done | done | apply lookup_delete_eq].
  - intros [update Hb].
    apply updateTask_unmatched with oid update;
      [done | done | done | apply lookup_delete_eq].
Qed.

Lemma deleted_stays_gone_witness :
  status
    (deleteTask (env_at 0 0 0%N) (ctx hex_b None)
       (deleteTask (env_at 0 0 0%N) (ctx hex_b None) db1).1).2
  = StatusNotFound.
Proof.
  destruct (deleted_stays_gone (env_at 0 0 0%N) (env_at 0 0 0%N)
              (ctx hex_b None) (ctx hex_b None) db1
              (deleteTask (env_at 0 0 0%N) (ctx hex_b None) db1).1
              (deleteTask (env_at 0 0 0%N) (ctx hex_b None) db1).2)
    as [-> _];
    [vm_compute; reflexivity | vm_compute; reflexivity | reflexivity
    | reflexivity |].
  reflexivity.
Defined.

(** X11. Creating a task and then deleting it by the returned id gives back the
    collection as it was before the creation. *)
Theorem create_then_delete
    (e e' : Env) (c c' : Context) (db db' : Collection) (t : Task) :
  createTask e c db = (db', JSON StatusCreated (BodyTask t)) ->
  NewObjectID e 0 <> NilObjectID ->
  ObjectIDFromHex (Param c' "id") = Some (ID t) ->
  db_err e' = false ->
  deleteTask e' c' db'
  = (db, JSON StatusOK (BodyMap "message" "Task deleted successfully")).
Proof.
  intros H Hn Hid Hup.
  destruct (createTask_Created e c db db' _ H eq_refl)
    as (task & _ & _ & _ & Hf & -> & [= ->]).
  rewrite ensureID_created in * by done.
  destruct (created_fields e task) as (Hi & _). rewrite Hi in Hid.
  rewrite (deleteTask_deleted e' c' _ (NewObjectID e 0)
             (marshal_fields (created e task)) Hid Hup)
    by apply lookup_insert_eq.
  by rewrite delete_insert_eq, delete_id.
Qed.

Lemma create_then_delete_witness :
  deleteTask (env_at 0 0 0%N) (ctx hex_b None) db1
  = (∅, JSON StatusOK (BodyMap "message" "Task deleted successfully")).
Proof.
  apply (create_then_delete env1 (env_at 0 0 0%N) req1 (ctx hex_b None) ∅ db1
           (created env1 (payload "a" "" "")));
    [vm_compute; reflexivity | discriminate | reflexivity | reflexivity].
Defined.

(** ** Update *)

(** A 200 from [getTaskByID] is the decoded document stored under the id of
    the request. *)
Lemma getTaskByID_OK
    (e : Env) (c : Context) (db db' : Collection) (t : Task) :
  getTaskByID e c db = (db', JSON StatusOK (BodyTask t)) ->
  exists (oid : ObjectID) (d : Doc),
    ObjectIDFromHex (Param c "id") = Some oid /\
    db !! oid = Some d /\ Decode oid d = Some t.
Proof.
  unfold getTaskByID, FindOne. intros H.
  destruct (ObjectIDFromHex (Param c "id")) as [oid|]; [|done].
  destruct (db_err e); [done|].
  destruct (db !! oid) as [d|] eqn:Hd; [|done].
  destruct (Decode oid d) as [t'|] eqn:Ht; [|done].
  injection H as _ <-. by exists oid, d.
Qed.

(** X12. Fetching a task after a successful update of it returns the title,
    description and status of the update payload, the clock reading of the
    update (in whole milliseconds) as updatedAt, and the id and createdAt it
    had when fetched before the update. *)
Theorem update_then_get
    (e e' : Env) (c c' : Context) (db db' : Collection) (r : Response)
    (update t : Task) :
  updateTask e c db = (db', r) ->
  status r = StatusOK ->
  Bind c = Some update ->
  Param c' "id" = Param c "id" ->
  getTaskByID e' c' db = (db, JSON StatusOK (BodyTask t)) ->
  db_err e' = false ->
  getTaskByID e' c' db'
  = (db', JSON StatusOK
            (BodyTask {| ID := ID t;
                         Title := Title update;
                         Description := Description update;
                         Status := Status update;
                         CreatedAt := CreatedAt t;
                         UpdatedAt :=
                           DateTime_Time
                             (NewDateTimeFromTime (time_Now e 0)) |})).
Proof.
  intros H Hs Hb Hp Hget Hup.
  destruct (updateTask_OK e c db db' r H Hs)
    as (oid & d & update' & Hid & Hb' & _ & Hd & ->).
  assert (update' = update) as -> by congruence.
  destruct (getTaskByID_OK e' c' db db t Hget) as (oid' & d' & Hid' & Hd' & Ht).
  rewrite Hp in Hid'. assert (oid' = oid) as -> by congruence.
  assert (d' = d) as -> by congruence.
  apply getTaskByID_found with oid
    (updateData (set_UpdatedAt (time_Now e 0) update) ∪ d);
    [by rewrite Hp | done | apply lookup_insert_eq |].
  by rewrite (Decode_set oid _ d t Ht).
Qed.

Lemma update_then_get_witness :
  getTaskByID (env_at 0 0 0%N) (ctx hex_b None)
    (updateTask (env_at 5000000 5000000 0%N)
       (ctx hex_b (Some (payload "X" "" "Done"))) db1).1
  = ((updateTask (env_at 5000000 5000000 0%N)
        (ctx hex_b (Some (payload "X" "" "Done"))) db1).1,
     JSON StatusOK (BodyTask (mkTask 255%N "X" "" "Done" 1000000 5000000))).
Proof.
  apply (update_then_get (env_at 5000000 5000000 0%N) (env_at 0 0 0%N)
           (ctx hex_b (Some (payload "X" "" "Done"))) (ctx hex_b None) db1 _
           (updateTask (env_at 5000000 5000000 0%N)
              (ctx hex_b (Some (payload "X" "" "Done"))) db1).2
           (payload "X" "" "Done")
           (mkTask 255%N "a" "" "Pending" 1000000 2000000));
    [vm_compute; reflexivity | vm_compute; reflexivity | reflexivity
    | reflexivity | vm_compute; reflexivity | reflexivity].
Defined.

(** [$set] of the same four fields twice keeps the second values only. *)
Lemma updateData_twice (u1 u2 : Task) (d : Doc) :
  updateData u2 ∪ (updateData u1 ∪ d) = updateData u2 ∪ d.
Proof.
  apply map_eq. intros k. rewrite !set_lookup, !updateData_lookup.
  by repeat case_decide.
Qed.

(** X13. Last write wins: after a successful update, a second update of the same
    record that goes through leaves the collection, and gives the answer, it
    would have left and given without the first. *)
Theorem update_last_write_wins
    (e1 e2 : Env) (c1 c2 : Context) (db db1' : Collection) (r1 : Response) :
  updateTask e1 c1 db = (db1', r1) ->
  status r1 = StatusOK ->
  Param c2 "id" = Param c1 "id" ->
  is_Some (Bind c2) ->
  db_err e2 = false ->
  updateTask e2 c2 db1' = updateTask e2 c2 db.
Proof.
  intros H Hs Hp [u2 Hb2] Hup.
  destruct (updateTask_OK e1 c1 db db1' r1 H Hs)
    as (oid & d & u1 & Hid & _ & _ & Hd & ->).
  rewrite <- Hp in Hid.
  rewrite (updateTask_matched e2 c2 db oid d u2) by done.
  rewrite (updateTask_matched e2 c2 _ oid
             (updateData (set_UpdatedAt (time_Now e1 0) u1) ∪ d) u2)
    by (try done; apply lookup_insert_eq).
  by rewrite insert_insert_eq, updateData_twice.
Qed.

Lemma update_last_write_wins_witness :
  updateTask (env_at 5000000 5000000 0%N)
    (ctx hex_b (Some (payload "X" "" "Done")))
    (updateTask (env_at 3000000 3000000 0%N)
       (ctx hex_b (Some (payload "W" "w" "Doing"))) db1).1
  = updateTask (env_at 5000000 5000000 0%N)
      (ctx hex_b (Some (payload "X" "" "Done"))) db1.
Proof.
  apply (update_last_write_wins (env_at 3000000 3000000 0%N)
           (env_at 5000000 5000000 0%N)
           (ctx hex_b (Some (payload "W" "w" "Doing")))
           (ctx hex_b (Some (payload "X" "" "Done"))) db1 _
           (updateTask (env_at 3000000 3000000 0%N)
              (ctx hex_b (Some (payload "W" "w" "Doing"))) db1).2);
    [vm_compute; reflexivity | vm_compute; reflexivity | reflexivity
    | eexists; reflexivity | reflexivity].
Defined.

(** ** More on update and on what is stored *)

(** X14. Update does not depend on an id or on timestamps the caller put in the
    payload: the record stays under the id of the path, keeps its createdAt,
    and takes its updatedAt from the clock. *)
Theorem update_discards_caller_fields
    (e : Env) (p : string -> string) (db : Collection) (update : Task)
    (i : ObjectID) (ca ua : Time) :
  updateTask e
    (mkContext p (Some (set_ID i (set_CreatedAt ca (set_UpdatedAt ua update)))))
    db
  = updateTask e (mkContext p (Some update)) db.
Proof.
  reflexivity.
Qed.

(** One request changes the number of stored records by the one record a 201
    from POST adds or a 200 from DELETE removes. *)
Lemma handler_size
    (rt : Route) (e : Env) (c : Context) (db : Collection) :
  (size (handler rt e c db).1
   + (if bool_decide (rt = DELETE_tasks_id /\
                      status (handler rt e c db).2 = StatusOK)
      then 1 else 0)
   = size db
     + (if bool_decide (rt = POST_tasks /\
                        status (handler rt e c db).2 = StatusCreated)
        then 1 else 0))%nat.
Proof.
  destruct rt; handler_branches;
    repeat (match goal with
            | |- context [bool_decide ?P] =>
                first [ rewrite (bool_decide_eq_true_2 P)
                          by (split; reflexivity)
                      | rewrite (bool_decide_eq_false_2 P)
                          by (intros [? ?]; discriminate) ]
            end);
    try lia.
  - rewrite map_size_insert_None by done. lia.
  - rewrite map_size_insert_Some by (by eexists). lia.
  - rewrite <- (insert_id db o g) at 2 by done.
    rewrite <- (insert_delete_eq db).
    rewrite (map_size_insert_None _ _ _ (lookup_delete_eq db o)). lia.
Qed.

(** X15. The records in store are the ones created and not deleted: after any
    requests, the number of stored records plus the number of DELETE
    requests answered 200 is the number of records there were plus the
    number of POST requests answered 201. *)
Theorem stored_records_count
    (reqs : list (Route * Env * Context)) (db db' : Collection)
    (rs : list Response) :
  serve reqs db = (db', rs) ->
  (size db' + answered DELETE_tasks_id StatusOK reqs rs
   = size db + answered POST_tasks StatusCreated reqs rs)%nat.
Proof.
  revert db db' rs.
  induction reqs as [|[[rt e] c] reqs IH]; intros db db' rs H; simpl in H.
  - injection H as <- <-. simpl. lia.
  - pose proof (handler_size rt e c db) as Hstep.
    destruct (handler rt e c db) as [db1' r].
    destruct (serve reqs db1') as [db2 rs'] eqn:Hr.
    injection H as <- <-. specialize (IH db1' db2 rs' Hr).
    cbn [answered fst snd] in *. lia.
Qed.

Lemma stored_records_count_witness :
  answered POST_tasks StatusCreated session (serve session ∅).2 = 2%nat /\
  answered DELETE_tasks_id StatusOK session (serve session ∅).2 = 1%nat /\
  (size (serve session ∅).1
   + answered DELETE_tasks_id StatusOK session (serve session ∅).2
   = size (∅ : Collection)
     + answered POST_tasks StatusCreated session (serve session ∅).2)%nat.
Proof.
  split; [vm_compute; reflexivity|]. split; [vm_compute; reflexivity|].
  apply (stored_records_count session ∅ (serve session ∅).1
           (serve session ∅).2).
  vm_compute. reflexivity.
Defined.

(** ** Documents that do not decode *)

Lemma decode_cursor_Some (cursor : list (ObjectID * Doc)) :
  forall tasks ts : list Task,
    decode_cursor cursor tasks = Some ts ->
    Forall (fun p => is_Some (Decode p.1 p.2)) cursor.
Proof.
  induction cursor as [|[id d] cursor IH]; intros tasks ts H; [done|].
  simpl in H. destruct (Decode id d) as [t|] eqn:Ht; [|done].
  constructor; [by exists t | by eapply IH].
Qed.

(** X16. One stored document that does not decode makes the whole listing, and
    the fetch of that document, answer 500; the listing answers 200 exactly
    when every stored document decodes. *)
Theorem undecodable_document_is_500
    (e : Env) (c : Context) (db : Collection) :
  db_err e = false ->
  (status (getAllTasks e c db).2 = StatusOK <-> decodable db) /\
  (forall (id : ObjectID) (d : Doc),
     db !! id = Some d ->
     Decode id d = None ->
     getAllTasks e c db
     = (db, JSON StatusInternalServerError
                 (BodyMap "error" "Error decoding task data")) /\
     (ObjectIDFromHex (Param c "id") = Some id ->
      getTaskByID e c db
      = (db, JSON StatusInternalServerError
                  (BodyMap "error" "Failed to fetch task")))).
Proof.
  intros Hup.
  assert (forall ts, decode_cursor (map_to_list db) [] = Some ts ->
                     decodable db) as Hdec.
  { intros ts Hts id d Hd.
    pose proof (decode_cursor_Some _ _ _ Hts) as Hall.
    rewrite Forall_forall in Hall.
    apply (Hall (id, d)). by apply elem_of_map_to_list. }
  split; [split|].
  - unfold getAllTasks, Find. rewrite Hup.
    destruct (decode_cursor (map_to_list db) []) as [ts|] eqn:Hts; [|done].
    intros _. by apply Hdec with ts.
  - intros Hdb. by destruct (getAllTasks_all e c db Hup Hdb) as (ts & -> & _).
  - intros id d Hd Hbad. split.
    + unfold getAllTasks, Find. rewrite Hup.
      destruct (decode_cursor (map_to_list db) []) as [ts|] eqn:Hts; [|done].
      destruct (Hdec ts eq_refl id d Hd) as [t Ht]. congruence.
    + intros Hid. unfold getTaskByID, FindOne. by rewrite Hid, Hup, Hd, Hbad.
Qed.

Lemma undecodable_document_is_500_witness :
  status (getAllTasks (env_at 0 0 0%N) (ctx "" None) db_bad).2
  = StatusInternalServerError.
Proof.
  destruct (undecodable_document_is_500 (env_at 0 0 0%N) (ctx "" None) db_bad
              eq_refl) as [_ Hbad].
  destruct (Hbad 9%N {["title" := BDateTime 0]}) as [-> _];
    [vm_compute; reflexivity | vm_compute; reflexivity |].
  reflexivity.
Defined.

(** ** Collections the service builds *)

Lemma handler_decodable
    (rt : Route) (e : Env) (c : Context) (db : Collection) :
  decodable db -> decodable (handler rt e c db).1.
Proof.
  intros Hdb. destruct rt; simpl.
  - destruct (createTask e c db) as [db' r] eqn:H.
    by destruct (createTask_decodable e c db db' r H Hdb).
  - by destruct (reads_keep_collection e c db) as [-> _].
  - by destruct (reads_keep_collection e c db) as [_ ->].
  - destruct (updateTask e c db) as [db' r] eqn:H.
    by apply (updateTask_decodable e c db db' r H).
  - destruct (deleteTask e c db) as [db' r] eqn:H.
    by apply (deleteTask_decodable e c db db' r H).
Qed.

Lemma serve_decodable (reqs : list (Route * Env * Context)) :
  forall (db db' : Collection) (rs : list Response),
    serve reqs db = (db', rs) -> decodable db -> decodable db'.
Proof.
  induction reqs as [|[[rt e] c] reqs IH]; intros db db' rs H Hdb; simpl in H.
  - by injection H as <- _.
  - pose proof (handler_decodable rt e c db Hdb) as Hstep.
    destruct (handler rt e c db) as [db1' r].
    destruct (serve reqs db1') as [db2 rs'] eqn:Hr.
    injection H as <- _. by eapply IH.
Qed.

(** X17. Whatever requests were served on an initially empty collection, every
    document in it decodes: a listing, the store responding, answers 200 with
    one task per stored document, never the decode error. *)
Theorem served_collection_lists
    (reqs : list (Route * Env * Context)) (db : Collection)
    (rs : list Response) (e : Env) (c : Context) :
  serve reqs ∅ = (db, rs) ->
  db_err e = false ->
  exists tasks : list Task,
    getAllTasks e c db = (db, JSON StatusOK (BodyTasks tasks)) /\
    length tasks = size db.
Proof.
  intros Hrun Hup.
  pose proof (serve_decodable reqs ∅ db rs Hrun decodable_empty) as Hdb.
  destruct (getAllTasks_all e c db Hup Hdb) as (tasks & Hget & HF).
  exists tasks. split; [done|].
  by rewrite <- (Forall2_length _ _ _ HF), length_map_to_list.
Qed.

Lemma served_collection_lists_witness :
  exists tasks : list Task,
    getAllTasks (env_at 0 0 0%N) (ctx "" None) (serve session ∅).1
    = ((serve session ∅).1, JSON StatusOK (BodyTasks tasks)) /\
    length tasks = size (serve session ∅).1.
Proof.
  apply (served_collection_lists session (serve session ∅).1
           (serve session ∅).2 (env_at 0 0 0%N) (ctx "" None));
    [vm_compute; reflexivity | reflexivity].
Defined.

(** ** Timestamps under a clock that does not run backwards *)

Lemma stamped_mono (T T' : DateTime) (db : Collection) :
  T <= T' -> stamped T db -> stamped T' db.
Proof.
  intros HT Hdb id d Hd. destruct (Hdb id d Hd) as (a & b & Ha & Hb & ? & ?).
  exists a, b. repeat split; try done. lia.
Qed.

Lemma stamped_insert (T : DateTime) (db : Collection) (id : ObjectID)
    (d : Doc) (a b : DateTime) :
  stamped T db ->
  d !! "created_at" = Some (BDateTime a) ->
  d !! "updated_at" = Some (BDateTime b) ->
  a <= b -> b <= T ->
  stamped T (<[id := d]> db).
Proof.
  intros Hdb Ha Hb Hab HbT id' d'. rewrite lookup_insert.
  destruct (decide (id = id')); [|apply Hdb].
  intros [= <-]. by exists a, b.
Qed.

(** One request keeps the stored timestamps in order. *)
Lemma handler_stamped
    (rt : Route) (e : Env) (c : Context) (db : Collection) (T : Time) :
  stamped (NewDateTimeFromTime T) db ->
  T <= time_Now e 0 ->
  time_Now e 0 <= time_Now e 1 ->
  stamped (NewDateTimeFromTime (time_Now e 1)) (handler rt e c db).1.
Proof.
  intros Hdb H0 H1.
  pose proof (NewDateTimeFromTime_mono _ _ H0) as Hm0.
  pose proof (NewDateTimeFromTime_mono _ _ H1) as Hm1.
  assert (stamped (NewDateTimeFromTime (time_Now e 1)) db) as Hdb'
    by (apply stamped_mono with (NewDateTimeFromTime T); [lia | done]).
  destruct rt; simpl.
  - destruct (createTask e c db) as [db' r] eqn:H.
    destruct (decide (status r = StatusCreated)) as [Hs|Hs].
    + destruct (createTask_Created e c db db' r H Hs)
        as (task & _ & _ & _ & _ & -> & _).
      destruct (created_fields e task) as (_ & _ & _ & _ & Hc & Hu).
      eapply stamped_insert; [done | | | | ].
      * apply marshal_fields_created_at.
      * apply marshal_fields_updated_at.
      * by rewrite Hc, Hu.
      * by rewrite Hu.
    + by rewrite (createTask_rejected e c db db' r H Hs).
  - by destruct (reads_keep_collection e c db) as [-> _].
  - by destruct (reads_keep_collection e c db) as [_ ->].
  - unfold updateTask, UpdateOne.
    destruct (ObjectIDFromHex (Param c "id")) as [oid|]; [|done].
    destruct (Bind c) as [update|]; [|done].
    destruct (db_err e); [done|].
    destruct (db !! oid) as [d|] eqn:Hd; [|done].
    destruct (decide (1 = 0)); [done|]. cbn [fst].
    destruct (Hdb oid d Hd) as (a & b & Ha & Hb & Hab & HbT).
    destruct (set_fields (set_UpdatedAt (time_Now e 0) update) d)
      as (_ & _ & _ & Hua & Hframe).
    eapply stamped_insert; [done | | exact Hua | | ].
    + by rewrite Hframe.
    + cbn. lia.
    + cbn. lia.
  - unfold deleteTask, DeleteOne.
    destruct (ObjectIDFromHex (Param c "id")) as [oid|]; [|done].
    destruct (db_err e); [done|].
    destruct (db !! oid) as [d|] eqn:Hd; [|done].
    destruct (decide (1 = 0)); [done|]. cbn [fst].
    intros id d'. rewrite lookup_delete.
    destruct (decide (oid = id)); [done|]. exact (Hdb' id d').
Qed.

Lemma serve_stamped (reqs : list (Route * Env * Context)) :
  forall (T : Time) (db db' : Collection) (rs : list Response),
    serve reqs db = (db', rs) ->
    clock_ordered T reqs ->
    stamped (NewDateTimeFromTime T) db ->
    exists T' : Time, stamped (NewDateTimeFromTime T') db'.
Proof.
  induction reqs as [|[[rt e] c] reqs IH]; intros T db db' rs H Hclk Hdb;
    simpl in H.
  - injection H as <- _. by exists T.
  - destruct Hclk as (H0 & H1 & Hclk).
    pose proof (handler_stamped rt e c db T Hdb H0 H1) as Hstep.
    destruct (handler rt e c db) as [db1' r].
    destruct (serve reqs db1') as [db2 rs'] eqn:Hr.
    injection H as <- _. by eapply IH.
Qed.

(** X18. On a clock that never runs backwards, whatever requests were served on
    an initially empty collection, every stored record has both timestamps
    and its createdAt is not after its updatedAt. *)
Theorem served_timestamps_ordered
    (T : Time) (reqs : list (Route * Env * Context)) (db : Collection)
    (rs : list Response) (id : ObjectID) (d : Doc) :
  serve reqs ∅ = (db, rs) ->
  clock_ordered T reqs ->
  db !! id = Some d ->
  exists a b : DateTime,
    d !! "created_at" = Some (BDateTime a) /\
    d !! "updated_at" = Some (BDateTime b) /\
    a <= b.
Proof.
  intros Hrun Hclk Hd.
  destruct (serve_stamped reqs T ∅ db rs Hrun Hclk) as [T' HT'].
  { intros id' d' H'. by rewrite lookup_empty in H'. }
  destruct (HT' id d Hd) as (a & b & Ha & Hb & Hab & _).
  by exists a, b.
Qed.

Lemma served_timestamps_ordered_witness :
  exists a b : DateTime,
    marshal_fields
      (created (env_at 4000000 4000500 4096%N) (payload "b" "second" "Open"))
    !! "created_at" = Some (BDateTime a) /\
    marshal_fields
      (created (env_at 4000000 4000500 4096%N) (payload "b" "second" "Open"))
    !! "updated_at" = Some (BDateTime b) /\
    a <= b.
Proof.
  apply (served_timestamps_ordered 0 session (serve session ∅).1
           (serve session ∅).2 4096%N);
    [vm_compute; reflexivity | | vm_compute; reflexivity].
  cbn. lia.
Defined.

(** ** Which requests are refused as malformed *)

Lemma all_hex_cons2 (a b : ascii) (s : string) :
  all_hex (String a (String b s)) <->
  fromHexChar a <> None /\ fromHexChar b <> None /\ all_hex s.
Proof.
  unfold all_hex. simpl. rewrite !Forall_cons. tauto.
Qed.

(** [hex.DecodeString] succeeds on the strings of hex digits of even
    length. *)
Lemma hex_DecodeString_Some (n : nat) :
  forall s : string,
    (String.length s <= n)%nat ->
    (is_Some (hex_DecodeString s) <->
     Nat.even (String.length s) = true /\ all_hex s).
Proof.
  induction n as [|n IH]; intros s Hn.
  - destruct s; [|simpl in Hn; lia]. simpl. split; [|by eexists].
    intros _. split; [done | constructor].
  - destruct s as [|a [|b s]].
    + simpl. split; [|by eexists]. intros _. split; [done | constructor].
    + simpl. split; [by intros [? ?] | by intros [? _]].
    + assert (String.length s <= n)%nat as Hs by (simpl in Hn; lia).
      specialize (IH s Hs).
      rewrite all_hex_cons2.
      change (Nat.even (String.length (String a (String b s))))
        with (Nat.even (String.length s)).
      simpl hex_DecodeString.
      destruct (fromHexChar a) as [x|]; [|split; [by intros [? ?]|tauto]].
      destruct (fromHexChar b) as [y|]; [|split; [by intros [? ?]|tauto]].
      destruct (hex_DecodeString s) as [bs|].
      * split; [|by eexists]. intros _.
        destruct IH as [IH _]. destruct IH as [He Hh]; [by eexists|].
        done.
      * split; [by intros [? ?]|]. intros (He & _ & _ & Hh).
        destruct IH as [_ IH]. by destruct IH.
Qed.

(** The ids [ObjectIDFromHex] accepts are the strings of 24 hex digits. *)
Lemma ObjectIDFromHex_Some (s : string) :
  is_Some (ObjectIDFromHex s) <-> String.length s = 24%nat /\ all_hex s.
Proof.
  unfold ObjectIDFromHex.
  destruct (Nat.eqb_spec (String.length s) 24) as [Hl|Hl]; simpl.
  - pose proof (hex_DecodeString_Some 24 s ltac:(lia)) as Hh.
    rewrite Hl in Hh. simpl in Hh.
    destruct (hex_DecodeString s) as [bs|].
    + split; [|by eexists]. intros _. split; [done|]. by apply Hh.
    + split; [by intros [? ?]|]. intros [_ Hall].
      destruct Hh as [_ Hh]. by destruct Hh.
  - split; [by intros [? ?] | by intros [? _]].
Qed.

(** X4. The 400 answers: fetching and deleting answer 400 exactly when the id is
    not a string of 24 hex digits, updating exactly when the id is such or the
    body does not decode, and creating exactly when the body does not decode
    or decodes with an empty title. *)
Theorem bad_request_iff (e : Env) (c : Context) (db : Collection) :
  let well_formed :=
    String.length (Param c "id") = 24%nat /\ all_hex (Param c "id") in
  (status (getTaskByID e c db).2 = StatusBadRequest <-> ~ well_formed) /\
  (status (deleteTask e c db).2 = StatusBadRequest <-> ~ well_formed) /\
  (status (updateTask e c db).2 = StatusBadRequest <->
   ~ well_formed \/ Bind c = None) /\
  (status (createTask e c db).2 = StatusBadRequest <->
   Bind c = None \/ exists task, Bind c = Some task /\ Title task = "").
Proof.
  intros well_formed.
  pose proof (ObjectIDFromHex_Some (Param c "id")) as Hwf.
  fold well_formed in Hwf.
  assert (ObjectIDFromHex (Param c "id") = None <-> ~ well_formed) as Hnone.
  { rewrite <- Hwf. destruct (ObjectIDFromHex (Param c "id")).
    - split; [done|]. intros Hn. destruct Hn. by eexists.
    - split; [|done]. by intros _ [? ?]. }
  clear Hwf. repeat split.
  - handler_branches; intros Hs; try discriminate Hs; by apply Hnone.
  - rewrite <- Hnone. handler_branches; intros Hn; done.
  - handler_branches; intros Hs; try discriminate Hs; by apply Hnone.
  - rewrite <- Hnone. handler_branches; intros Hn; done.
  - handler_branches; intros Hs; try discriminate Hs;
      first [by right | left; by apply Hnone].
  - rewrite <- Hnone. handler_branches; intros [Hn|Hn]; done.
  - handler_branches; intros Hs; try discriminate Hs;
      first [by left | right; by eexists].
  - handler_branches; intros [Hn|(task & Hb & Ht)]; try done; congruence.
Qed.
